(** * fleeting-plugin-proxmox: session, credentials and instance lookup

    A shallow embedding of [plugin/proxmox_session.go] (the session ticket
    refresher, the credential reader, the client factory and the instance
    resolver) and of the second variant of the refresher, together with the
    properties of the specification checked against them.

    Conventions.
    - Go's [int] and [uint64] are integers in [Z]; the conversion
      [uint64(x)] is written out as a reduction modulo [2^64].
    - Go strings are byte strings: [string], one [ascii] per byte.
    - A Go function returning [(T, error)] returns a [result T].
    - Code that touches the operating system, the logger or the cluster
      threads a [World] through a small state monad.
    - The [context.Context] arguments carry a deadline only; they are left
      out of the embedding. *)

From Stdlib Require Import ZArith Ascii String List Lia Bool.
From stdpp Require Import base option gmap strings list pretty.
Import ListNotations.

Local Open Scope Z_scope.
Local Open Scope string_scope.

(** ** Integers *)

Module GoInt.

Definition min_int : Z := - 2 ^ 63.
Definition max_int : Z := 2 ^ 63 - 1.
Definition max_uint64 : Z := 2 ^ 64 - 1.

(** The values of Go's [int] (on the 64-bit platforms the plugin runs on;
    the 32-bit range is a part of it). *)
Definition is_int (x : Z) : Prop := min_int <= x <= max_int.
Definition is_uint64 (x : Z) : Prop := 0 <= x <= max_uint64.

(** The conversion [uint64(x)] of a signed integer. *)
Definition uint64 (x : Z) : Z := x mod 2 ^ 64.

End GoInt.

(** ** Errors *)

(** What [encoding/json] reports.  [EOF] and [ErrUnexpectedEOF] are the
    [io] errors the decoder hands through; a [SyntaxError] is raised at
    the first byte the scanner rejects, and says in which [context] (the
    wording of the contexts differs between Go releases; no property
    below rests on it); an [UnmarshalTypeError] names the JSON kind that
    did not fit ([Value]) and the member it was met in ([Field], empty for
    the top-level value; how a release spells the member differs as well,
    and no property below rests on it). *)
Inductive json_error : Type :=
| EOF
| ErrUnexpectedEOF
| SyntaxError (context : string)
| UnmarshalTypeError (Value : string) (Field : string).

(** Go's [error] values, as far as the plugin makes or sees them. *)
Inductive error : Type :=
| errorString (s : string)
    (** [errors.New(s)], and the errors of libraries known by their text *)
| PathError (Op Path : string) (Err : error)
    (** [*fs.PathError], what [os.Open] fails with *)
| jsonError (e : json_error)
| wrapError (prefix : string) (err : error)
    (** [fmt.Errorf(prefix + "%w", err)], the prefix with its verbs
        already expanded *).

Inductive result (A : Type) : Type :=
| OK (a : A)
| Fail (err : error).
Arguments OK {A} a.
Arguments Fail {A} err.

(** [errors.Unwrap]. *)
Definition Unwrap (e : error) : option error :=
  match e with
  | wrapError _ err => Some err
  | PathError _ _ err => Some err
  | _ => None
  end.

Section ErrorText.

(** The text of an [encoding/json] error depends on the Go release and
    on [strconv.Quote]; it is left as a parameter of the rendering. *)
Variable json_text : json_error -> string.

(** The method [Error()]. *)
Fixpoint Error (e : error) : string :=
  match e with
  | errorString s => s
  | PathError op path err => op +:+ " " +:+ path +:+ ": " +:+ Error err
  | jsonError j => json_text j
  | wrapError prefix err => prefix +:+ Error err
  end.

End ErrorText.

(** [strings.Contains]. *)
Definition Contains (s sub : string) : Prop :=
  exists pre post, s = pre +:+ sub +:+ post.

Definition ErrNotFound : error := errorString "not found".

(** ** The go-proxmox client library, as the plugin uses it *)

Module proxmox.

Record Credentials : Type := mkCredentials {
  Username : string;
  Password : string;
  Otp : string;
  Path : string;
  Privs : string;
  Realm : string
}.

(** The zero value [proxmox.Credentials{}]. *)
Definition zero : Credentials :=
  mkCredentials EmptyString EmptyString EmptyString EmptyString EmptyString EmptyString.

Record ClusterResource : Type := mkClusterResource {
  Type_ : string;
  VMID : Z;          (* uint64 *)
  Node : string
}.

Record Pool : Type := mkPool { Members : list ClusterResource }.

Record NodeHandle : Type := mkNode { NodeName : string }.

Record VirtualMachine : Type := mkVirtualMachine {
  vmNode : string;
  vmVMID : Z
}.

(** The options [NewClient] is given. *)
Inductive Option : Type :=
| WithCredentials (c : Credentials)
| WithAPIToken (tokenID secret : string)
| WithHTTPClient (InsecureSkipVerify : bool).

Record Client : Type := NewClient {
  baseURL : string;
  options : list Option
}.

(** How the cluster answers the calls the plugin makes through its
    client: [Client.Pool], [Client.Node], [Node.VirtualMachine]. *)
Record Cluster : Type := mkCluster {
  Pool_ : string -> result Pool;
  Node_ : string -> result NodeHandle;
  VirtualMachine_ : NodeHandle -> Z -> result VirtualMachine
}.

End proxmox.

(** ** The instance group *)

Record Settings : Type := mkSettings {
  URL : string;
  Pool : string;
  CredentialsFilePath : string;
  InsecureSkipTLSVerify : bool
}.

Record InstanceGroup : Type := mkInstanceGroup {
  settings : Settings;
  cluster : proxmox.Cluster
}.

(** ** Instance resolver *)

Definition getProxmoxPool (ig : InstanceGroup) : result proxmox.Pool :=
  match proxmox.Pool_ (cluster ig) (Pool (settings ig)) with
  | Fail err =>
      Fail (wrapError ("failed to get pool id='" +:+ Pool (settings ig) +:+ "': ") err)
  | OK pool => OK pool
  end.

Definition getProxmoxVMOnNode (ig : InstanceGroup) (vmid : Z) (nodeName : string)
  : result proxmox.VirtualMachine :=
  match proxmox.Node_ (cluster ig) nodeName with
  | Fail err => Fail (wrapError ("failed to get node='" +:+ nodeName +:+ "': ") err)
  | OK node =>
      match proxmox.VirtualMachine_ (cluster ig) node vmid with
      | Fail err =>
          Fail (wrapError ("failed to get vm='" +:+ pretty vmid +:+ "' on node='"
                           +:+ nodeName +:+ "': ") err)
      | OK vm => OK vm
      end
  end.

(** The body of the [for _, member := range pool.Members] loop. *)
Fixpoint scanMembers (ig : InstanceGroup) (vmid : Z) (members : list proxmox.ClusterResource)
  : result proxmox.VirtualMachine :=
  match members with
  | [] => Fail ErrNotFound
  | member :: rest =>
      if negb (String.eqb (proxmox.Type_ member) "qemu") then scanMembers ig vmid rest
      else if Z.eqb (proxmox.VMID member) (GoInt.uint64 vmid)
           then getProxmoxVMOnNode ig vmid (proxmox.Node member)
           else scanMembers ig vmid rest
  end.

Definition getProxmoxVM (ig : InstanceGroup) (vmid : Z) : result proxmox.VirtualMachine :=
  match getProxmoxPool ig with
  | Fail err => Fail err
  | OK pool => scanMembers ig vmid (proxmox.Members pool)
  end.

(** ** [encoding/json], as the credential reader uses it

    [json.NewDecoder(r).Decode(&v)] reads the first JSON value of the
    stream and stores it into [v].  The scanner below follows the state
    machine of the package byte by byte; it builds the value while it
    checks the syntax.  Nothing after the first value is looked at. *)

Module json.

Local Open Scope char_scope.
Local Open Scope N_scope.

#[local] Set Warnings "-register-all".
Inductive value : Type :=
| Null
| Bool (b : bool)
| Number (literal : string)
| Str (s : string)
| Array (elems : list value)
| Object (members : list (string * value)).
#[local] Set Warnings "register-all".

(** Outcome of scanning a piece of input. *)
Inductive scan (A : Type) : Type :=
| Done (a : A) (rest : string)
| Short                         (* the input ended inside the value *)
| Invalid (context : string)    (* the scanner rejected a byte *)
| OutOfFuel.
Arguments Done {A} a rest.
Arguments Short {A}.
Arguments Invalid {A} context.
Arguments OutOfFuel {A}.

Definition bind {A B} (x : scan A) (k : A -> string -> scan B) : scan B :=
  match x with
  | Done a rest => k a rest
  | Short => Short
  | Invalid c => Invalid c
  | OutOfFuel => OutOfFuel
  end.

(** Put [pre] in front of the string a scan delivers. *)
Definition emit (pre : string) (x : scan string) : scan string :=
  bind x (fun s rest => Done (pre +:+ s)%string rest).

Definition code (c : ascii) : N := N_of_ascii c.

Definition between (lo hi : N) (c : ascii) : bool :=
  (lo <=? code c) && (code c <=? hi).

Definition isSpace (c : ascii) : bool :=
  Ascii.eqb c " " || Ascii.eqb c "009" || Ascii.eqb c "010" || Ascii.eqb c "013".

Fixpoint skipSpace (s : string) : string :=
  match s with
  | EmptyString => EmptyString
  | String c r => if isSpace c then skipSpace r else s
  end.

Definition isDigit (c : ascii) : bool := between 48 57 c.

Definition hexval (c : ascii) : option N :=
  if between 48 57 c then Some (code c - 48)
  else if between 97 102 c then Some (code c - 87)
  else if between 65 70 c then Some (code c - 55)
  else None.

Definition hex4 (a b c d : ascii) : option N :=
  match hexval a, hexval b, hexval c, hexval d with
  | Some x, Some y, Some z, Some w => Some (((x * 16 + y) * 16 + z) * 16 + w)
  | _, _, _, _ => None
  end.

Fixpoint allHex (s : string) : bool :=
  match s with
  | EmptyString => true
  | String c r => match hexval c with Some _ => allHex r | None => false end
  end.

(** *** UTF-8 *)

Definition byte (n : N) : string := String (ascii_of_N n) EmptyString.

(** [unicode.ReplacementChar], encoded. *)
Definition RuneError : string := (byte 239 +:+ byte 191 +:+ byte 189)%string.

Definition isSurrogate (r : N) : bool := (55296 <=? r) && (r <? 57344).

(** [utf8.EncodeRune]. *)
Definition EncodeRune (r : N) : string :=
  if r <? 128 then byte r
  else if r <? 2048 then (byte (192 + r / 64) +:+ byte (128 + r mod 64))%string
  else if isSurrogate r || (1114111 <? r) then RuneError
  else if r <? 65536
    then (byte (224 + r / 4096) +:+ byte (128 + (r / 64) mod 64)
          +:+ byte (128 + r mod 64))%string
    else (byte (240 + r / 262144) +:+ byte (128 + (r / 4096) mod 64)
          +:+ byte (128 + (r / 64) mod 64) +:+ byte (128 + r mod 64))%string.

(** [utf16.DecodeRune] on the two halves of a surrogate pair. *)
Definition DecodeSurrogates (r1 r2 : N) : option N :=
  if (55296 <=? r1) && (r1 <? 56320) && (56320 <=? r2) && (r2 <? 57344)
  then Some ((r1 - 55296) * 1024 + (r2 - 56320) + 65536)
  else None.

Fixpoint continuation (n : nat) (s : string) : bool :=
  match n, s with
  | O, _ => true
  | S n', String c r => between 128 191 c && continuation n' r
  | S _, EmptyString => false
  end.

(** The number of bytes that follow the lead byte [c] in the rune
    [utf8.DecodeRune] finds at [c :: r]; [0] for an ASCII byte and for an
    encoding that is not valid (which decodes as a one-byte error). *)
Definition runeTail (c : ascii) (r : string) : nat :=
  let second lo hi n :=
    match r with
    | String c1 r1 => if between lo hi c1 && continuation n r1 then S n else O
    | EmptyString => O
    end in
  if between 194 223 c then second 128 191 0%nat
  else if Ascii.eqb c "224" then second 160 191 1%nat
  else if between 225 236 c then second 128 191 1%nat
  else if Ascii.eqb c "237" then second 128 159 1%nat
  else if between 238 239 c then second 128 191 1%nat
  else if Ascii.eqb c "240" then second 144 191 2%nat
  else if between 241 243 c then second 128 191 2%nat
  else if Ascii.eqb c "244" then second 128 143 2%nat
  else O.

(** *** Strings

    [unquote k s] scans a string literal from behind its opening quote
    and delivers its unquoted bytes; [k] bytes of a rune already checked
    are still to be copied. *)
Definition simpleEscape (e : ascii) : option ascii :=
  if Ascii.eqb e "034" || Ascii.eqb e "\" || Ascii.eqb e "/" then Some e
  else if Ascii.eqb e "b" then Some "008"
  else if Ascii.eqb e "f" then Some "012"
  else if Ascii.eqb e "n" then Some "010"
  else if Ascii.eqb e "r" then Some "013"
  else if Ascii.eqb e "t" then Some "009"
  else None.

Fixpoint unquote (k : nat) (s : string) : scan string :=
  match s with
  | EmptyString => Short
  | String c r =>
    match k with
    | S k' => emit (String c EmptyString) (unquote k' r)
    | O =>
      if Ascii.eqb c "034" then Done EmptyString r
      else if Ascii.eqb c "\" then
        match r with
        | EmptyString => Short
        | String e r1 =>
          match simpleEscape e with
          | Some b => emit (String b EmptyString) (unquote 0 r1)
          | None =>
            if Ascii.eqb e "u" then
              match r1 with
              | String h1 (String h2 (String h3 (String h4 r5))) =>
                match hex4 h1 h2 h3 h4 with
                | None => Invalid "in \u hexadecimal character escape"
                | Some rr =>
                  if isSurrogate rr then
                    match r5 with
                    | String b (String u
                        (String g1 (String g2 (String g3 (String g4 r11))))) =>
                      match (if Ascii.eqb b "\" && Ascii.eqb u "u"
                             then hex4 g1 g2 g3 g4 else None) with
                      | Some rr1 =>
                        match DecodeSurrogates rr rr1 with
                        | Some dec => emit (EncodeRune dec) (unquote 0 r11)
                        | None => emit RuneError (unquote 0 r5)
                        end
                      | None => emit RuneError (unquote 0 r5)
                      end
                    | _ => emit RuneError (unquote 0 r5)
                    end
                  else emit (EncodeRune rr) (unquote 0 r5)
                end
              | _ => if allHex r1 then Short
                     else Invalid "in \u hexadecimal character escape"
              end
            else Invalid "in string escape code"
          end
        end
      else if code c <? 32 then Invalid "in string literal"
      else if code c <? 128 then emit (String c EmptyString) (unquote 0 r)
      else
        match runeTail c r with
        | O => emit RuneError (unquote 0 r)
        | S n => emit (String c EmptyString) (unquote (S n) r)
        end
    end
  end.

(** *** Numbers: the states [stateNeg], [state0], [state1], [stateDot],
    [stateDot0], [stateE], [stateESign] and [stateE0] of the scanner. *)
Inductive numState : Type :=
| Neg | Zero | Int | Dot | Frac | Exp | ExpSign | ExpDigits.

Definition numStep (st : numState) (c : ascii) : option numState :=
  let isE := Ascii.eqb c "e" || Ascii.eqb c "E" in
  match st with
  | Neg => if Ascii.eqb c "0" then Some Zero
           else if between 49 57 c then Some Int else None
  | Zero => if Ascii.eqb c "." then Some Dot else if isE then Some Exp else None
  | Int => if isDigit c then Some Int
           else if Ascii.eqb c "." then Some Dot else if isE then Some Exp else None
  | Dot => if isDigit c then Some Frac else None
  | Frac => if isDigit c then Some Frac else if isE then Some Exp else None
  | Exp => if Ascii.eqb c "+" || Ascii.eqb c "-" then Some ExpSign
           else if isDigit c then Some ExpDigits else None
  | ExpSign => if isDigit c then Some ExpDigits else None
  | ExpDigits => if isDigit c then Some ExpDigits else None
  end.

(** The states in which the literal may end. *)
Definition numEnd (st : numState) : bool :=
  match st with
  | Zero | Int | Frac | ExpDigits => true
  | _ => false
  end.

Definition numContext (st : numState) : string :=
  match st with
  | Dot => "after decimal point in numeric literal"
  | Exp | ExpSign => "in exponent of numeric literal"
  | _ => "in numeric literal"
  end.

Fixpoint number (st : numState) (s : string) : scan string :=
  match s with
  | EmptyString => if numEnd st then Done EmptyString EmptyString else Short
  | String c r =>
    match numStep st c with
    | Some st' => emit (String c EmptyString) (number st' r)
    | None => if numEnd st then Done EmptyString s else Invalid (numContext st)
    end
  end.

(** *** The literals [true], [false], [null], from behind their first
    letter. *)
Fixpoint literal (lit : string) (s : string) : scan unit :=
  match lit with
  | EmptyString => Done tt s
  | String l lit' =>
    match s with
    | EmptyString => Short
    | String c r => if Ascii.eqb c l then literal lit' r else Invalid "in literal"
    end
  end.

(** *** Values *)

(** The bracket [c] comes next, behind white space: the object or array
    just opened is empty. *)
Definition closes (c : ascii) (s : string) : option string :=
  match skipSpace s with
  | String c' r => if Ascii.eqb c' c then Some r else None
  | EmptyString => None
  end.

Definition maxNestingDepth : N := 10000.

Fixpoint parseValue (fuel : nat) (depth : N) (s : string) : scan value :=
  match fuel with
  | O => OutOfFuel
  | S fuel' =>
    match skipSpace s with
    | EmptyString => Short
    | String c r =>
      if Ascii.eqb c "{" then
        if depth <? maxNestingDepth then
          match closes "}" r with
          | Some r' => Done (Object []) r'
          | None => bind (parseMembers fuel' (depth + 1) r) (fun ms rest => Done (Object ms) rest)
          end
        else Invalid "exceeded max depth"
      else if Ascii.eqb c "[" then
        if depth <? maxNestingDepth then
          match closes "]" r with
          | Some r' => Done (Array []) r'
          | None => bind (parseElements fuel' (depth + 1) r) (fun vs rest => Done (Array vs) rest)
          end
        else Invalid "exceeded max depth"
      else if Ascii.eqb c "034" then
        bind (unquote 0 r) (fun str rest => Done (Str str) rest)
      else if Ascii.eqb c "-" then
        bind (emit "-" (number Neg r)) (fun lit rest => Done (Number lit) rest)
      else if Ascii.eqb c "0" then
        bind (emit "0" (number Zero r)) (fun lit rest => Done (Number lit) rest)
      else if between 49 57 c then
        bind (emit (String c EmptyString) (number Int r))
             (fun lit rest => Done (Number lit) rest)
      else if Ascii.eqb c "t" then
        bind (literal "rue" r) (fun _ rest => Done (Bool true) rest)
      else if Ascii.eqb c "f" then
        bind (literal "alse" r) (fun _ rest => Done (Bool false) rest)
      else if Ascii.eqb c "n" then
        bind (literal "ull" r) (fun _ rest => Done Null rest)
      else Invalid "looking for beginning of value"
    end
  end

(** The members of an object, from a place where a key has to come. *)
with parseMembers (fuel : nat) (depth : N) (s : string) : scan (list (string * value)) :=
  match fuel with
  | O => OutOfFuel
  | S fuel' =>
    match skipSpace s with
    | EmptyString => Short
    | String c r =>
      if Ascii.eqb c "034" then
        bind (unquote 0 r) (fun key r1 =>
          match skipSpace r1 with
          | EmptyString => Short
          | String c2 r2 =>
            if Ascii.eqb c2 ":" then
              bind (parseValue fuel' depth r2) (fun v r3 =>
                match skipSpace r3 with
                | EmptyString => Short
                | String c4 r4 =>
                  if Ascii.eqb c4 "," then
                    bind (parseMembers fuel' depth r4)
                         (fun ms rest => Done ((key, v) :: ms) rest)
                  else if Ascii.eqb c4 "}" then Done [(key, v)] r4
                  else Invalid "after object key:value pair"
                end)
            else Invalid "after object key"
          end)
      else Invalid "looking for beginning of object key string"
    end
  end

(** The elements of an array, from a place where a value has to come. *)
with parseElements (fuel : nat) (depth : N) (s : string) : scan (list value) :=
  match fuel with
  | O => OutOfFuel
  | S fuel' =>
    bind (parseValue fuel' depth s) (fun v r1 =>
      match skipSpace r1 with
      | EmptyString => Short
      | String c r2 =>
        if Ascii.eqb c "," then
          bind (parseElements fuel' depth r2) (fun vs rest => Done (v :: vs) rest)
        else if Ascii.eqb c "]" then Done [v] r2
        else Invalid "after array element"
      end)
  end.

(** Fuel that is enough for any value in [s], see [parse_fuel]. *)
Definition enough (s : string) : nat := (2 * String.length s + 2)%nat.

Definition parse (s : string) : scan value := parseValue (enough s) 0 s.

End json.

(** ** The credential record *)

Record Credentials : Type := mkCredentials {
  Username : string;
  Password : string;      (* Password or token secret *)
  TokenID : string;
  OtpSecret : string;     (* Secret token for OTP generation *)
  Path : string;
  Privs : string;
  Realm : string
}.

(** The zero value [Credentials{}]. *)
Definition noCredentials : Credentials :=
  mkCredentials EmptyString EmptyString EmptyString EmptyString
                EmptyString EmptyString EmptyString.

(** The fields of the struct, in the order of their declaration. *)
Inductive field : Type :=
| fUsername | fPassword | fTokenID | fOtpSecret | fPath | fPrivs | fRealm.

Definition fields : list field :=
  [fUsername; fPassword; fTokenID; fOtpSecret; fPath; fPrivs; fRealm].

(** The name in the [json] tag of a field.  What follows the comma in a
    tag ([omitempty], [omitifempty]) plays no part in decoding. *)
Definition jsonName (f : field) : string :=
  match f with
  | fUsername => "username"
  | fPassword => "password"
  | fTokenID => "token"
  | fOtpSecret => "otpsecret"
  | fPath => "path"
  | fPrivs => "privs"
  | fRealm => "realm"
  end.

Definition getField (f : field) (c : Credentials) : string :=
  match f with
  | fUsername => Username c
  | fPassword => Password c
  | fTokenID => TokenID c
  | fOtpSecret => OtpSecret c
  | fPath => Path c
  | fPrivs => Privs c
  | fRealm => Realm c
  end.

Definition setField (f : field) (s : string) (c : Credentials) : Credentials :=
  match f with
  | fUsername => mkCredentials s (Password c) (TokenID c) (OtpSecret c) (Path c) (Privs c) (Realm c)
  | fPassword => mkCredentials (Username c) s (TokenID c) (OtpSecret c) (Path c) (Privs c) (Realm c)
  | fTokenID => mkCredentials (Username c) (Password c) s (OtpSecret c) (Path c) (Privs c) (Realm c)
  | fOtpSecret => mkCredentials (Username c) (Password c) (TokenID c) s (Path c) (Privs c) (Realm c)
  | fPath => mkCredentials (Username c) (Password c) (TokenID c) (OtpSecret c) s (Privs c) (Realm c)
  | fPrivs => mkCredentials (Username c) (Password c) (TokenID c) (OtpSecret c) (Path c) s (Realm c)
  | fRealm => mkCredentials (Username c) (Password c) (TokenID c) (OtpSecret c) (Path c) (Privs c) s
  end.

(** ** Storing a JSON value into the credential record *)

Module decode.

Import json.
Local Open Scope char_scope.

(** [foldName], as far as it matters for names made of ASCII letters:
    ASCII letters go to upper case, and the two other runes whose fold
    orbit holds an ASCII letter, U+017F (long s) and U+212A (Kelvin
    sign), go to [S] and [K].  The bytes of every other rune stay; they
    are not ASCII, folded or not. *)
Fixpoint foldName (s : string) : string :=
  match s with
  | EmptyString => EmptyString
  | String c r =>
    if between 97 122 c then String (ascii_of_N (code c - 32)) (foldName r)
    else
      match c, r with
      | "197", String "191" r' => String "S" (foldName r')
      | "226", String "132" (String "170" r') => String "K" (foldName r')
      | _, _ => String c (foldName r)
      end
  end.

(** A key of the input names the field [f]. *)
Definition keyIs (key : string) (f : field) : bool :=
  String.eqb (foldName key) (foldName (jsonName f)).

(** The field an object key is stored into: the one with exactly this
    name, else the first one with this name up to case. *)
Definition fieldOf (key : string) : option field :=
  match find (fun f => String.eqb (jsonName f) key) fields with
  | Some f => Some f
  | None => find (keyIs key) fields
  end.

Definition kind (v : value) : string :=
  match v with
  | Null => "null"
  | Bool _ => "bool"
  | Number _ => "number"
  | Str _ => "string"
  | Array _ => "array"
  | Object _ => "object"
  end.

(** The decoder keeps the first error and goes on. *)
Definition saveError (saved : option json_error) (e : json_error) : option json_error :=
  match saved with
  | Some _ => saved
  | None => Some e
  end.

(** One member of the object.  Every field of the record is a Go
    [string]: a JSON string is stored, [null] leaves the field as it is,
    any other value is a type error, reported for the member under its
    key as the input writes it. *)
Definition member (st : Credentials * option json_error) (kv : string * value)
  : Credentials * option json_error :=
  let '(c, saved) := st in
  match fieldOf (fst kv) with
  | None => st
  | Some f =>
    match snd kv with
    | Str s => (setField f s c, saved)
    | Null => st
    | v => (c, saveError saved (UnmarshalTypeError (kind v) (fst kv)))
    end
  end.

(** [Unmarshal] of a value into a [*Credentials]. *)
Definition unmarshal (v : value) (c : Credentials) : Credentials * option json_error :=
  match v with
  | Null => (c, None)
  | Object ms => fold_left member ms (c, None)
  | _ => (c, Some (UnmarshalTypeError (kind v) EmptyString))
  end.

(** A source of bytes ([io.Reader]): reading delivers [data] and then
    ends, with [io.EOF] or with the error [failure]. *)
Record Reader : Type := mkReader {
  data : string;
  failure : option error
}.

(** Objects and arrays end with their closing bracket; the end of any
    other value shows only at the byte after it, or at the end of the
    input. *)
Definition endsLate (v : value) : bool :=
  match v with
  | Object _ | Array _ => false
  | _ => true
  end.

(** [json.NewDecoder(r).Decode(&c)]. *)
Definition Decode (r : Reader) (c : Credentials) : Credentials * option error :=
  let atEnd :=
    match failure r with
    | Some err => err
    | None => match skipSpace (data r) with
              | EmptyString => jsonError EOF
              | _ => jsonError ErrUnexpectedEOF
              end
    end in
  match parse (data r) with
  | Invalid context => (c, Some (jsonError (SyntaxError context)))
  | Short | OutOfFuel => (c, Some atEnd)
  | Done v rest =>
    match rest, failure r with
    | EmptyString, Some err =>
        if endsLate v then (c, Some err)
        else let '(c', e) := unmarshal v c in (c', option_map jsonError e)
    | _, _ => let '(c', e) := unmarshal v c in (c', option_map jsonError e)
    end
  end.

End decode.

(** ** The world around the plugin *)

(** What a path of the file system leads to. *)
Inductive inode : Type :=
| Readable (r : decode.Reader)      (* [os.Open] succeeds *)
| Unopenable (errno : string).      (* [os.Open] fails: permissions, ... *)

(** What the plugin writes and calls, in the order it does so. *)
Inductive Event : Type :=
| LogError (msg : string) (key : string) (err : error)
    (** [ig.log.Error(msg, key, err)] *)
| LogInfo (msg : string)
    (** [ig.log.Info(msg)] *)
| CallTicket (cookie : string) (credentials : option proxmox.Credentials)
    (** [ig.proxmox.Ticket(ctx, credentials)]: the request for a ticket that
        the client sends.  Its body is made of [credentials] ([None] is the
        nil pointer); like every request of a client with a session it
        bears the session ticket the client holds, [cookie], as the cookie
        [PVEAuthCookie]. *).

Record World : Type := mkWorld {
  files : gmap string inode;     (* the file system *)
  descriptors : gset nat;        (* the files the process holds open *)
  trace : list Event;            (* log lines and calls so far, oldest first *)
  Ticket : string;               (* [ig.proxmox.session.Ticket] *)
  waitGroup : Z                  (* counter of [sessionTicketRefresherWaitGroup] *)
}.

(** Computations in the world. *)
Definition M (A : Type) : Type := World -> A * World.

#[global] Instance M_ret : MRet M := fun A a w => (a, w).

#[global] Instance M_bind : MBind M :=
  fun A B k m w => let '(a, w') := m w in k a w'.

(** [defer cleanup] in front of [body]: the cleanup runs when the body is
    left, whatever it returns. *)
Definition defer {A} (cleanup : M unit) (body : M A) : M A :=
  a ← body; cleanup;; mret a.

Definition record (e : Event) : M unit :=
  fun w => (tt, mkWorld (files w) (descriptors w) (trace w ++ [e])%list (Ticket w) (waitGroup w)).

(** *** Files *)

Record File : Type := mkFile {
  fd : nat;
  name : string;
  reader : decode.Reader
}.

Definition ENOENT : error := errorString "no such file or directory".
Definition ErrClosed : error := errorString "file already closed".

(** [os.Open]: on success the file gets a descriptor that was free. *)
Definition os_Open (path : string) : M (result File) :=
  fun w =>
    match files w !! path with
    | None => (Fail (PathError "open" path ENOENT), w)
    | Some (Unopenable errno) => (Fail (PathError "open" path (errorString errno)), w)
    | Some (Readable r) =>
        let n := fresh (descriptors w) in
        (OK (mkFile n path r),
         mkWorld (files w) ({[ n ]} ∪ descriptors w) (trace w) (Ticket w) (waitGroup w))
    end.

(** [os.File.Close]; the error it may return is dropped by the caller. *)
Definition File_Close (f : File) : M unit :=
  fun w =>
    (tt, mkWorld (files w) (descriptors w ∖ {[ fd f ]}) (trace w) (Ticket w) (waitGroup w)).

(** [json.NewDecoder(f).Decode(&c)] on a file: reading needs the
    descriptor to be open. *)
Definition File_Decode (f : File) (c : Credentials) : M (Credentials * option error) :=
  fun w =>
    if decide (fd f ∈ descriptors w)
    then (decode.Decode (reader f) c, w)
    else ((c, Some (PathError "read" (name f) ErrClosed)), w).

(** ** Credential store reader *)

Definition getProxmoxCredentials (ig : InstanceGroup) : M (result Credentials) :=
  let path := CredentialsFilePath (settings ig) in
  opened ← os_Open path;
  match opened with
  | Fail err =>
      mret (Fail (wrapError
        ("failed to open credentials file from path='" +:+ path +:+ "': ") err))
  | OK credentialsFile =>
      defer (File_Close credentialsFile)
        (decoded ← File_Decode credentialsFile noCredentials;
         match decoded with
         | (_, Some err) =>
             mret (Fail (wrapError
               ("failed to decode credentials file from path='" +:+ path +:+ "': ") err))
         | (credentials, None) => mret (OK credentials)
         end)
  end.

(** ** Cluster client factory *)

Section ClientFactory.

(** The package [net/url], which the factory calls through
    [url.Parse], [URL.JoinPath] and [URL.String]. *)
Variable URL_ : Type.
Variable url_Parse : string -> result URL_.
Variable url_JoinPath : URL_ -> string -> URL_.
Variable url_String : URL_ -> string.

Definition getProxmoxClient (ig : InstanceGroup) : M (result proxmox.Client) :=
  match url_Parse (URL (settings ig)) with
  | Fail err =>
      mret (Fail (wrapError ("failed to parse URL='" +:+ URL (settings ig) +:+ "': ") err))
  | OK url =>
      loaded ← getProxmoxCredentials ig;
      match loaded with
      | Fail err => mret (Fail err)
      | OK credentials =>
          let httpClient := proxmox.WithHTTPClient (InsecureSkipTLSVerify (settings ig)) in
          if String.eqb (TokenID credentials) EmptyString then
            (* No token, normal login with username and password *)
            let proxmoxCredentials :=
              proxmox.mkCredentials
                (Username credentials) (Password credentials) (proxmox.Otp proxmox.zero)
                (Path credentials) (Privs credentials) (Realm credentials) in
            mret (OK (proxmox.NewClient
                       (url_String (url_JoinPath url "/api2/json"))
                       [proxmox.WithCredentials proxmoxCredentials; httpClient]))
          else
            (* Token available, log in with API token *)
            let apiToken :=
              Username credentials +:+ "@" +:+ Realm credentials +:+ "!"
              +:+ TokenID credentials in
            mret (OK (proxmox.NewClient
                       (url_String (url_JoinPath url "/api2/json"))
                       [proxmox.WithAPIToken apiToken (Password credentials); httpClient]))
      end
  end.

End ClientFactory.

(** ** Session refresher *)

(** How the cluster answers one call of [Client.Ticket]: with a new
    session ticket, which the client keeps, or with an error. *)
Definition Reply : Type := option proxmox.Credentials -> result string.

Definition setTicket (ticket : string) : M unit :=
  fun w => (tt, mkWorld (files w) (descriptors w) (trace w) ticket (waitGroup w)).

(** The session ticket the client holds. *)
Definition getTicket : M string := fun w => (Ticket w, w).

(** [ig.proxmox.Ticket(ctx, credentials)], a method of the go-proxmox
    client: it posts [credentials] to the ticket endpoint of the cluster.
    The client puts its authentication on every request it sends; for a
    client with a session, the client of this world, that is the ticket
    of the session (a client built with an API token sends the token
    instead).  The ticket the cluster answers with becomes the ticket of
    the session. *)
Definition proxmox_Ticket (reply : Reply) (credentials : option proxmox.Credentials)
  : M (option error) :=
  cookie ← getTicket;
  record (CallTicket cookie credentials);;
  match reply credentials with
  | OK ticket => setTicket ticket;; mret None
  | Fail err => mret (Some err)
  end.

(** What the [select] of the loop receives: the shutdown trigger, or the
    timer of [time.After(sessionTicketRefreshInterval)]; by then the file
    system may have changed, and the cluster answers as it does then. *)
Inductive Received : Type :=
| Shutdown
| Interval (now : gmap string inode) (reply : Reply).

Inductive Status : Type :=
| Waiting      (* blocked in the [select] *)
| Returned.    (* left [runSessionTicketRefresher] *)

Definition setFiles (now : gmap string inode) : M unit :=
  fun w => (tt, mkWorld now (descriptors w) (trace w) (Ticket w) (waitGroup w)).

(** The [for { select { ... } }] loop around one refresh cycle. *)
Fixpoint refresherLoop (cycle : Reply -> M unit) (received : list Received) : M Status :=
  match received with
  | [] => mret Waiting
  | Shutdown :: _ => mret Returned
  | Interval now reply :: later =>
      setFiles now;; cycle reply;; refresherLoop cycle later
  end.

Definition WaitGroup_Add (delta : Z) : M unit :=
  fun w => (tt, mkWorld (files w) (descriptors w) (trace w) (Ticket w) (waitGroup w + delta)).

Definition WaitGroup_Done : M unit := WaitGroup_Add (-1).

(** [WaitGroup.Wait] returns when the counter is zero. *)
Definition WaitGroup_Wait_returns (w : World) : bool := Z.eqb (waitGroup w) 0.

(** The body of the goroutine, [defer Done()] around the loop: [Done]
    runs when the loop is left. *)
Definition goroutine (run : list Received -> M Status) (received : list Received) : M Status :=
  st ← run received;
  match st with
  | Returned => WaitGroup_Done;; mret Returned
  | Waiting => mret Waiting
  end.

(** The refresher of [proxmox_session.go]. *)

(** The function literal run at each interval.  The credentials handed to
    [Ticket] are the struct built just before the call, with the user name
    alone: the assignments of the realm and of the password are commented
    out in the source. *)
Definition refreshCycle (ig : InstanceGroup) (reply : Reply) : M unit :=
  loaded ← getProxmoxCredentials ig;
  match loaded with
  | Fail err =>
      record (LogError "failed to refresh proxmox session, could not read credentials"
                       "err" err)
  | OK credentials =>
      let proxmoxCredentials :=
        proxmox.mkCredentials
          (Username credentials) (proxmox.Password proxmox.zero) (proxmox.Otp proxmox.zero)
          (proxmox.Path proxmox.zero) (proxmox.Privs proxmox.zero)
          (proxmox.Realm proxmox.zero) in
      (* Refresh Ticket using old Ticket *)
      failed ← proxmox_Ticket reply (Some proxmoxCredentials);
      match failed with
      | Some err => record (LogError "failed to refresh proxmox session" "err" err)
      | None => mret tt
      end;;
      record (LogInfo "refreshed proxmox session")
  end.

Definition runSessionTicketRefresher (ig : InstanceGroup) : list Received -> M Status :=
  refresherLoop (refreshCycle ig).

(** [startSessionTicketRefresher] counts the goroutine in and starts it;
    the goroutine started is handed back, to be run on what its [select]
    receives. *)
Definition startSessionTicketRefresher (ig : InstanceGroup)
  : M (list Received -> M Status) :=
  WaitGroup_Add 1;; mret (goroutine (runSessionTicketRefresher ig)).

(** The refresher of the second source file. *)
Module part_000.

Definition refreshCycle (ig : InstanceGroup) (reply : Reply) : M unit :=
  (* Refresh Ticket using old Ticket *)
  failed ← proxmox_Ticket reply None;
  match failed with
  | Some err => record (LogError "failed to refresh proxmox session" "err" err)
  | None => mret tt
  end;;
  record (LogInfo "refreshed proxmox session").

Definition runSessionTicketRefresher (ig : InstanceGroup) : list Received -> M Status :=
  refresherLoop (refreshCycle ig).

Definition startSessionTicketRefresher (ig : InstanceGroup)
  : M (list Received -> M Status) :=
  WaitGroup_Add 1;; mret (goroutine (runSessionTicketRefresher ig)).

End part_000.

(** ** Notions used in the statements *)

(** The test the loop of [getProxmoxVM] makes on a pool member. *)
Definition isInstance (vmid : Z) (m : proxmox.ClusterResource) : Prop :=
  proxmox.Type_ m = "qemu" /\ proxmox.VMID m = GoInt.uint64 vmid.

(** Concrete inputs: the pool of the scenario of the specification, with
    three members, one of them the instance 105 on node pve2; credential
    files; worlds that hold them. *)
Module scenario.

Definition members : list proxmox.ClusterResource :=
  [ proxmox.mkClusterResource "lxc" 105 "pve1";
    proxmox.mkClusterResource "qemu" 105 "pve2";
    proxmox.mkClusterResource "qemu" 106 "pve3" ].

Definition cluster : proxmox.Cluster :=
  proxmox.mkCluster
    (fun _ => OK (proxmox.mkPool members))
    (fun name => OK (proxmox.mkNode name))
    (fun node vmid => OK (proxmox.mkVirtualMachine (proxmox.NodeName node) vmid)).

Definition ig : InstanceGroup :=
  mkInstanceGroup
    (mkSettings "https://pve.example:8006" "runners" "/etc/fleeting/credentials.json" false)
    cluster.

(** Credential files. *)
Definition quoted (s : string) : string :=
  String "034" s +:+ String "034" EmptyString.

Fixpoint pairs (kvs : list (string * string)) : string :=
  match kvs with
  | [] => EmptyString
  | [(k, v)] => quoted k +:+ ": " +:+ quoted v
  | (k, v) :: rest => quoted k +:+ ": " +:+ quoted v +:+ ", " +:+ pairs rest
  end.

Definition object (kvs : list (string * string)) : string :=
  "{" +:+ pairs kvs +:+ "}".

Definition tokenFile : string :=
  object [("username", "ci"); ("password", "5ecret"); ("token", "runner");
          ("realm", "pve")].

Definition passwordFile : string :=
  object [("username", "root"); ("password", "hunter2"); ("realm", "pam");
          ("path", "/vms"); ("privs", "VM.Audit")].

(** A file that names neither the user nor the password. *)
Definition tokenOnlyFile : string := object [("token", "runner")].

(** A file that breaks off behind the first key. *)
Definition brokenFile : string := "{" +:+ quoted "username" +:+ ": ".

Definition path : string := CredentialsFilePath (settings ig).

(** A world in which the credential file holds [content], no file is
    open, nothing was logged and the client holds a session ticket. *)
Definition world (content : string) : World :=
  mkWorld {[ path := Readable (decode.mkReader content None) ]} ∅ []
          "PVE:root@pam:65F1A2B3::old" 0.

(** The same world without the credential file. *)
Definition worldWithoutFile : World :=
  mkWorld ∅ ∅ [] "PVE:root@pam:65F1A2B3::old" 0.

End scenario.

(** Unfold the monad of the world. *)
Ltac run_world :=
  unfold defer, record, setFiles, setTicket, WaitGroup_Done, WaitGroup_Add,
         mbind, M_bind, mret, M_ret in *;
  cbn beta iota zeta in *.

(** What [os.Open] returns, apart from the number of the descriptor. *)
Definition opened (w : World) (name : string) : result decode.Reader :=
  match files w !! name with
  | None => Fail (PathError "open" name ENOENT)
  | Some (Unopenable errno) => Fail (PathError "open" name (errorString errno))
  | Some (Readable r) => OK r
  end.

(** What one cycle of the refresher of [proxmox_session.go] adds to the
    trace, read off the session ticket the client holds, the result of
    loading the credentials and the answer of the cluster. *)
Definition cycleEvents (ticket : string) (loaded : result Credentials) (reply : Reply)
  : list Event :=
  match loaded with
  | Fail err =>
      [LogError "failed to refresh proxmox session, could not read credentials" "err" err]
  | OK credentials =>
      let presented :=
        Some (proxmox.mkCredentials (Username credentials) EmptyString EmptyString
                                    EmptyString EmptyString EmptyString) in
      match reply presented with
      | Fail err =>
          [CallTicket ticket presented;
           LogError "failed to refresh proxmox session" "err" err;
           LogInfo "refreshed proxmox session"]
      | OK _ =>
          [CallTicket ticket presented; LogInfo "refreshed proxmox session"]
      end
  end.

(** The session ticket the client holds after such a cycle. *)
Definition ticketAfter (ticket : string) (loaded : result Credentials) (reply : Reply)
  : string :=
  match loaded with
  | Fail _ => ticket
  | OK credentials =>
      match reply (Some (proxmox.mkCredentials (Username credentials) EmptyString
                           EmptyString EmptyString EmptyString EmptyString)) with
      | OK answered => answered
      | Fail _ => ticket
      end
  end.

(** The events a run has added to the trace of [before]. *)
Definition added (before after : World) : list Event :=
  drop (length (trace before)) (trace after).

(** A cluster that turns every renewal down. *)
Definition refusing : Reply :=
  fun _ => Fail (errorString "401 authentication failure").

(** A value a field of the record can take in: a string, or [null]. *)
Definition storable (v : json.value) : bool :=
  match v with
  | json.Str _ | json.Null => true
  | _ => false
  end.

(** Some key of the object names the field [f]. *)
Definition present (f : field) (members : list (string * json.value)) : bool :=
  existsb (fun kv => decode.keyIs (fst kv) f) members.

(** The sentence of the specification on required fields: a credential
    file whose object has no user name, or no password, fails to load. *)
Definition requiredFieldsEnforced : Prop :=
  forall (ig : InstanceGroup) (w : World) (rd : decode.Reader)
         (members : list (string * json.value)) (rest : string),
    opened w (CredentialsFilePath (settings ig)) = OK rd ->
    json.parse (decode.data rd) = json.Done (json.Object members) rest ->
    present fUsername members = false \/ present fPassword members = false ->
    exists err, fst (getProxmoxCredentials ig w) = Fail err.

(** The scan [x] of an input did not run out of fuel, and what it left
    over is shorter than [n]. *)
Definition below {A} (n : nat) (x : json.scan A) : Prop :=
  match x with
  | json.Done _ rest => (String.length rest < n)%nat
  | json.OutOfFuel => False
  | _ => True
  end.

(** Go through the cases of a scanner. *)
Ltac scan_cases finish :=
  repeat first
    [ exact I
    | finish
    | match goal with
      | |- context [if ?b then _ else _] => destruct b
      | |- context [match ?x with _ => _ end] => destruct x
      end ].

(** The test of the loop of [getProxmoxVM], as the code computes it. *)
Definition isInstanceb (vmid : Z) (m : proxmox.ClusterResource) : bool :=
  String.eqb (proxmox.Type_ m) "qemu" && Z.eqb (proxmox.VMID m) (GoInt.uint64 vmid).

(** The instance group in front of a cluster whose pool has the members
    [members], and that answers for nodes and machines as before. *)
Definition withMembers (ig : InstanceGroup) (members : list proxmox.ClusterResource)
  : InstanceGroup :=
  mkInstanceGroup (settings ig)
    (proxmox.mkCluster (fun _ => OK (proxmox.mkPool members))
                       (proxmox.Node_ (cluster ig))
                       (proxmox.VirtualMachine_ (cluster ig))).

(** An error and the errors it wraps, outermost first: the chain that
    [errors.Unwrap] walks. *)
Fixpoint causes (e : error) : list error :=
  e :: match e with
       | wrapError _ err => causes err
       | PathError _ _ err => causes err
       | _ => []
       end.

(** The first member of an object that names a field of the record and
    holds a value the field cannot take in. *)
Definition firstMisfitMember (members : list (string * json.value))
  : option (string * json.value) :=
  find (fun kv => match decode.fieldOf (fst kv) with
                  | Some _ => negb (storable (snd kv))
                  | None => false
                  end) members.

(** The field that member names, and its value. *)
Definition firstMisfit (members : list (string * json.value))
  : option (field * json.value) :=
  match firstMisfitMember members with
  | Some kv => match decode.fieldOf (fst kv) with
               | Some f => Some (f, snd kv)
               | None => None
               end
  | None => None
  end.

(** The record after the members of an object have been stored. *)
Definition stored (members : list (string * json.value)) : Credentials :=
  fst (fold_left decode.member members (noCredentials, None)).

(** Further inputs for the examples. *)
Module examples.

(** The token file of the scenario with an OTP secret, a path and
    privileges added. *)
Definition tokenFileWithOtp : string :=
  scenario.object
    [("username", "ci"); ("password", "5ecret"); ("token", "runner"); ("realm", "pve");
     ("otpsecret", "JBSWY3DPEHPK3PXP"); ("path", "/"); ("privs", "Sys.Audit")].

(** The world of the scenario after some activity: a line in the log, a
    descriptor in use, another session ticket. *)
Definition busyWorld (content : string) : World :=
  mkWorld {[ scenario.path := Readable (decode.mkReader content None) ]}
          {[ 0%nat ]} [LogInfo "refreshed proxmox session"]
          "PVE:root@pam:65F1B000::new" 1.

End examples.

(** The type error the decoder raises for a member whose value does not
    fit the field. *)
Definition misfitError (kv : string * json.value) : json_error :=
  UnmarshalTypeError (decode.kind (snd kv)) (fst kv).

(** Strings that stand for themselves between the quotes of a JSON
    string: printable ASCII without the quote and the backslash. *)
Definition plainChar (c : ascii) : bool :=
  (32 <=? json.code c)%N && (json.code c <? 128)%N
  && negb (Ascii.eqb c "034") && negb (Ascii.eqb c "\").

Fixpoint plain (s : string) : bool :=
  match s with
  | EmptyString => true
  | String c r => plainChar c && plain r
  end.

(** A credential file written out for a record: one object with the
    seven keys of the struct tags. *)
Definition render (c : Credentials) : string :=
  scenario.object
    [("username", Username c); ("password", Password c); ("token", TokenID c);
     ("otpsecret", OtpSecret c); ("path", Path c); ("privs", Privs c);
     ("realm", Realm c)].

(** The intervals a run of the loop serves: those received ahead of the
    first shutdown trigger. *)
Fixpoint served (received : list Received) : list (gmap string inode * Reply) :=
  match received with
  | [] => []
  | Shutdown :: _ => []
  | Interval now reply :: later => (now, reply) :: served later
  end.

(** The credentials as they load from the file system [now]. *)
Definition loadFrom (ig : InstanceGroup) (now : gmap string inode) : result Credentials :=
  fst (getProxmoxCredentials ig (mkWorld now ∅ [] EmptyString 0)).

Definition isTicketCall (e : Event) : bool :=
  match e with
  | CallTicket _ _ => true
  | _ => false
  end.

(** The line that tells a refreshed session. *)
Definition isRefreshed (e : Event) : bool :=
  match e with
  | LogInfo msg => String.eqb msg "refreshed proxmox session"
  | _ => false
  end.

Definition count (p : Event -> bool) (events : list Event) : nat :=
  length (List.filter p events).

(** What one cycle of the refresher of the second file adds to the trace. *)
Definition cycleEvents_part_000 (ticket : string) (reply : Reply) : list Event :=
  (CallTicket ticket None
   :: match reply None with
      | Fail err => [LogError "failed to refresh proxmox session" "err" err]
      | OK _ => []
      end
   ++ [LogInfo "refreshed proxmox session"])%list.

(** The session ticket the client holds after such a cycle. *)
Definition ticketAfter_part_000 (ticket : string) (reply : Reply) : string :=
  match reply None with
  | OK answered => answered
  | Fail _ => ticket
  end.

(** The events of a run of the loop of [proxmox_session.go] that starts
    with the session ticket [ticket] and serves [intervals]. *)
Fixpoint runEvents (ig : InstanceGroup) (ticket : string)
    (intervals : list (gmap string inode * Reply)) : list Event :=
  match intervals with
  | [] => []
  | (now, reply) :: rest =>
      (cycleEvents ticket (loadFrom ig now) reply
       ++ runEvents ig (ticketAfter ticket (loadFrom ig now) reply) rest)%list
  end.

(** The same for the loop of the second file. *)
Fixpoint runEvents_part_000 (ticket : string)
    (intervals : list (gmap string inode * Reply)) : list Event :=
  match intervals with
  | [] => []
  | (_, reply) :: rest =>
      (cycleEvents_part_000 ticket reply
       ++ runEvents_part_000 (ticketAfter_part_000 ticket reply) rest)%list
  end.

(** * Properties *)

(** ** Integers *)

Lemma uint64_range x : GoInt.is_uint64 (GoInt.uint64 x).
Proof.
  unfold GoInt.is_uint64, GoInt.uint64, GoInt.max_uint64.
  pose proof (Z.mod_pos_bound x (2 ^ 64)). lia.
Qed.

Lemma uint64_nonneg x : 0 <= x -> GoInt.is_int x -> GoInt.uint64 x = x.
Proof.
  unfold GoInt.is_int, GoInt.max_int, GoInt.uint64. intros ? ?.
  apply Z.mod_small. lia.
Qed.

Lemma uint64_neg x : x < 0 -> GoInt.is_int x -> GoInt.uint64 x = 2 ^ 64 + x.
Proof.
  unfold GoInt.is_int, GoInt.min_int, GoInt.uint64. intros ? ?.
  symmetry. apply (Z.mod_unique_pos x (2 ^ 64) (-1) (2 ^ 64 + x)); lia.
Qed.

(** ** Instance resolver *)

Lemma isInstance_dec vmid m :
  isInstance vmid m <->
  negb (String.eqb (proxmox.Type_ m) "qemu") = false
  /\ Z.eqb (proxmox.VMID m) (GoInt.uint64 vmid) = true.
Proof.
  unfold isInstance. rewrite negb_false_iff, String.eqb_eq, Z.eqb_eq. tauto.
Qed.

(** A member that is not the instance is passed over. *)
Lemma scanMembers_skip ig vmid m rest :
  ~ isInstance vmid m ->
  scanMembers ig vmid (m :: rest) = scanMembers ig vmid rest.
Proof.
  intros Hno. cbn [scanMembers].
  destruct (negb (String.eqb (proxmox.Type_ m) "qemu")) eqn:Hty; [reflexivity|].
  destruct (Z.eqb (proxmox.VMID m) (GoInt.uint64 vmid)) eqn:Hid; [|reflexivity].
  exfalso. apply Hno. apply isInstance_dec. auto.
Qed.

(** The instance is looked up on its node. *)
Lemma scanMembers_hit ig vmid m rest :
  isInstance vmid m ->
  scanMembers ig vmid (m :: rest) = getProxmoxVMOnNode ig vmid (proxmox.Node m).
Proof.
  intros [Hty Hid]%isInstance_dec. cbn [scanMembers]. now rewrite Hty, Hid.
Qed.

Lemma scanMembers_first ig vmid before m after :
  Forall (fun x => ~ isInstance vmid x) before ->
  isInstance vmid m ->
  scanMembers ig vmid (before ++ m :: after)%list
  = getProxmoxVMOnNode ig vmid (proxmox.Node m).
Proof.
  intros Hbefore Hm. induction Hbefore as [|x before Hx _ IH]; cbn [app].
  - now apply scanMembers_hit.
  - rewrite scanMembers_skip by assumption. exact IH.
Qed.

Lemma scanMembers_none ig vmid members :
  Forall (fun x => ~ isInstance vmid x) members ->
  scanMembers ig vmid members = Fail ErrNotFound.
Proof.
  induction 1 as [|x members Hx _ IH]; [reflexivity|].
  rewrite scanMembers_skip by assumption. exact IH.
Qed.

(** The scan ends with "not found" or at a member that is the instance. *)
Lemma scanMembers_cases ig vmid members :
  scanMembers ig vmid members = Fail ErrNotFound
  \/ exists m, In m members /\ isInstance vmid m
               /\ scanMembers ig vmid members
                  = getProxmoxVMOnNode ig vmid (proxmox.Node m).
Proof.
  induction members as [|x members IH]; [now left|].
  destruct (negb (String.eqb (proxmox.Type_ x) "qemu")) eqn:Hty;
    [|destruct (Z.eqb (proxmox.VMID x) (GoInt.uint64 vmid)) eqn:Hid].
  1,3: (assert (Hno : ~ isInstance vmid x)
          by (intros [? ?]%isInstance_dec; congruence);
        rewrite scanMembers_skip by assumption;
        destruct IH as [IH | (m & Hin & Hm & IH)];
        [now left | right; exists m; auto using in_cons]).
  assert (Hx : isInstance vmid x) by (apply isInstance_dec; auto).
  right. exists x. split; [now left|]. split; [assumption|].
  now apply scanMembers_hit.
Qed.

Lemma getProxmoxVM_pool ig vmid members :
  proxmox.Pool_ (cluster ig) (Pool (settings ig)) = OK (proxmox.mkPool members) ->
  getProxmoxVM ig vmid = scanMembers ig vmid members.
Proof. intros Hpool. unfold getProxmoxVM, getProxmoxPool. now rewrite Hpool. Qed.

(** C1. [getProxmoxVM] fetches the pool and scans its members in the order
    the API returned them.  At the first member whose type is "qemu" and
    whose id is the requested one (compared as the code compares it, after
    the conversion to [uint64], which leaves an id that is not negative as
    it is), it returns what [getProxmoxVMOnNode] returns for the node of
    that member; when no member of type "qemu" has the id, it returns
    [ErrNotFound].  Members of another type are passed over, whatever
    their id. *)
Theorem getProxmoxVM_first_instance (ig : InstanceGroup) (vmid : Z)
    (members : list proxmox.ClusterResource) :
  proxmox.Pool_ (cluster ig) (Pool (settings ig)) = OK (proxmox.mkPool members) ->
  (forall before m after,
      members = (before ++ m :: after)%list ->
      Forall (fun x => ~ (proxmox.Type_ x = "qemu"
                          /\ proxmox.VMID x = GoInt.uint64 vmid)) before ->
      proxmox.Type_ m = "qemu" ->
      proxmox.VMID m = GoInt.uint64 vmid ->
      getProxmoxVM ig vmid = getProxmoxVMOnNode ig vmid (proxmox.Node m))
  /\ (Forall (fun x => ~ (proxmox.Type_ x = "qemu"
                          /\ proxmox.VMID x = GoInt.uint64 vmid)) members ->
      getProxmoxVM ig vmid = Fail ErrNotFound)
  /\ (forall m rest,
      proxmox.Type_ m <> "qemu" ->
      scanMembers ig vmid (m :: rest) = scanMembers ig vmid rest)
  /\ (0 <= vmid -> GoInt.is_int vmid -> GoInt.uint64 vmid = vmid).
Proof.
  intros Hpool. rewrite (getProxmoxVM_pool _ _ _ Hpool).
  split; [|split; [|split]].
  - intros before m after -> Hbefore Hty Hid.
    apply scanMembers_first; [exact Hbefore | split; assumption].
  - apply scanMembers_none.
  - intros m rest Hty. apply scanMembers_skip. intros [? _]. contradiction.
  - apply uint64_nonneg.
Qed.

(** The scenario of the specification: instance 105 is found on node
    pve2, behind a container with the same id; instance 999 is not found. *)
Lemma getProxmoxVM_first_instance_scenario :
  getProxmoxVM scenario.ig 105 = getProxmoxVMOnNode scenario.ig 105 "pve2"
  /\ getProxmoxVM scenario.ig 105 = OK (proxmox.mkVirtualMachine "pve2" 105)
  /\ getProxmoxVM scenario.ig 999 = Fail ErrNotFound.
Proof.
  destruct (getProxmoxVM_first_instance scenario.ig 105 scenario.members eq_refl)
    as (Hfirst & _ & _ & _).
  destruct (getProxmoxVM_first_instance scenario.ig 999 scenario.members eq_refl)
    as (_ & Hnone & _ & _).
  split; [|split].
  - apply (Hfirst [proxmox.mkClusterResource "lxc" 105 "pve1"]
                  (proxmox.mkClusterResource "qemu" 105 "pve2")
                  [proxmox.mkClusterResource "qemu" 106 "pve3"]).
    + reflexivity.
    + constructor; [|constructor]. cbn. intros [Hty _]. discriminate Hty.
    + reflexivity.
    + reflexivity.
  - reflexivity.
  - apply Hnone. unfold scenario.members.
    repeat constructor; cbn; intros [_ Hid]; vm_compute in Hid; discriminate Hid.
Defined.

(** C10. The instance id is a signed [int]; the loop compares the member
    id with [uint64(vmid)], which wraps modulo [2^64].  For a negative
    [vmid] the converted id is [2^64 + vmid]: the lookup goes on to a node
    only for a member of type "qemu" with exactly that id, and ends with
    [ErrNotFound], not with an instance and not with an error about the
    argument, when no member has it, as in every pool whose ids are below
    [2^63]. *)
Theorem getProxmoxVM_negative_id (ig : InstanceGroup) (vmid : Z)
    (members : list proxmox.ClusterResource) :
  GoInt.is_int vmid ->
  vmid < 0 ->
  proxmox.Pool_ (cluster ig) (Pool (settings ig)) = OK (proxmox.mkPool members) ->
  GoInt.uint64 vmid = 2 ^ 64 + vmid
  /\ (getProxmoxVM ig vmid = Fail ErrNotFound
      \/ exists m, In m members
                   /\ proxmox.Type_ m = "qemu"
                   /\ proxmox.VMID m = 2 ^ 64 + vmid
                   /\ getProxmoxVM ig vmid = getProxmoxVMOnNode ig vmid (proxmox.Node m))
  /\ (Forall (fun m => proxmox.VMID m <> 2 ^ 64 + vmid) members ->
      getProxmoxVM ig vmid = Fail ErrNotFound)
  /\ (Forall (fun m => proxmox.VMID m < 2 ^ 63) members ->
      getProxmoxVM ig vmid = Fail ErrNotFound).
Proof.
  intros Hint Hneg Hpool.
  pose proof (uint64_neg vmid Hneg Hint) as Hwrap.
  rewrite (getProxmoxVM_pool _ _ _ Hpool).
  assert (Hnone : Forall (fun m => proxmox.VMID m <> 2 ^ 64 + vmid) members ->
                  scanMembers ig vmid members = Fail ErrNotFound).
  { intros Hall. apply scanMembers_none.
    eapply Forall_impl; [exact Hall|]. cbn. intros m Hm [_ Hid].
    apply Hm. now rewrite Hid. }
  split; [exact Hwrap|]. split; [|split].
  - destruct (scanMembers_cases ig vmid members) as [Hnf | (m & Hin & [Hty Hid] & Hm)].
    + now left.
    + right. exists m. rewrite <- Hwrap. auto.
  - exact Hnone.
  - intros Hsmall. apply Hnone.
    eapply Forall_impl; [exact Hsmall|]. cbn. intros m Hm.
    unfold GoInt.is_int, GoInt.min_int in Hint. lia.
Qed.

(** On the pool of the scenario the id [-1] is looked for as
    [2^64 - 1] and not found. *)
Lemma getProxmoxVM_negative_id_scenario :
  GoInt.uint64 (-1) = 18446744073709551615
  /\ getProxmoxVM scenario.ig (-1) = Fail ErrNotFound.
Proof.
  assert (Hint : GoInt.is_int (-1)) by (unfold GoInt.is_int, GoInt.min_int, GoInt.max_int; lia).
  assert (Hneg : -1 < 0) by lia.
  destruct (getProxmoxVM_negative_id scenario.ig (-1) scenario.members Hint Hneg eq_refl)
    as (Hwrap & _ & _ & Hsmall).
  split; [exact Hwrap|].
  apply Hsmall. unfold scenario.members. repeat constructor; cbn; lia.
Defined.

(** ** Strings *)

Lemma append_assoc (a b c : string) : (a +:+ b) +:+ c = a +:+ b +:+ c.
Proof.
  induction a as [|x a IH]; [reflexivity|].
  change (String x ((a +:+ b) +:+ c) = String x (a +:+ b +:+ c)). now rewrite IH.
Qed.

(** A wrapped error says what its prefix says. *)
Lemma wrapError_Contains json_text (a path b : string) (err : error) :
  Contains (Error json_text (wrapError (a +:+ path +:+ b) err)) path.
Proof.
  exists a, (b +:+ Error json_text err). cbn [Error].
  now rewrite !append_assoc.
Qed.

(** ** Credential store reader *)


Lemma World_eta (w : World) :
  mkWorld (files w) (descriptors w) (trace w) (Ticket w) (waitGroup w) = w.
Proof. now destruct w. Qed.

(** Closing the descriptor just opened gives the table back as it was. *)
Lemma close_fresh (D : gset nat) : ({[ fresh D ]} ∪ D) ∖ {[ fresh D ]} = D.
Proof.
  pose proof (is_fresh D) as Hfresh. apply set_eq. intros x.
  rewrite elem_of_difference, elem_of_union, !elem_of_singleton.
  split; [intros [[-> | Hin] Hne]; [contradiction | exact Hin]|].
  intros Hin. split; [now right|]. intros ->. contradiction.
Qed.


Lemma os_Open_opened w name :
  match fst (os_Open name w) with
  | OK f => opened w name = OK (reader f)
  | Fail err => opened w name = Fail err
  end.
Proof.
  unfold os_Open, opened. destruct (files w !! name) as [[r|errno]|]; reflexivity.
Qed.

(** The three ways out of [getProxmoxCredentials]. *)
Lemma getProxmoxCredentials_paths ig w :
  let path := CredentialsFilePath (settings ig) in
  getProxmoxCredentials ig w =
  (match opened w path with
   | Fail err =>
       Fail (wrapError ("failed to open credentials file from path='" +:+ path +:+ "': ") err)
   | OK r =>
       match decode.Decode r noCredentials with
       | (_, Some err) =>
           Fail (wrapError
                   ("failed to decode credentials file from path='" +:+ path +:+ "': ") err)
       | (credentials, None) => OK credentials
       end
   end, w).
Proof.
  intros path. unfold getProxmoxCredentials, opened. fold path. run_world.
  unfold os_Open. destruct (files w !! path) as [[r|errno]|]; try reflexivity.
  unfold File_Decode, File_Close. cbn [fd reader descriptors files trace Ticket waitGroup].
  destruct (decide (fresh (descriptors w) ∈ {[fresh (descriptors w)]} ∪ descriptors w))
    as [_|Hno]; [|exfalso; apply Hno, elem_of_union_l, elem_of_singleton; reflexivity].
  destruct (decode.Decode r noCredentials) as [c [err|]];
    cbn [descriptors files trace Ticket waitGroup];
    rewrite close_fresh, World_eta; reflexivity.
Qed.

(** C4. [getProxmoxCredentials] returns an error, and no record, exactly
    when the file cannot be opened or its content does not decode.  When
    the file cannot be opened the error wraps the error of [os.Open] and
    its message contains the configured path; when decoding fails the
    error wraps the error of the decoder and its message contains the
    path.  On every way out the descriptor table is as it was before the
    call: the descriptor the call opened is closed again. *)
Theorem getProxmoxCredentials_errors (json_text : json_error -> string)
    (ig : InstanceGroup) (w : World) :
  let path := CredentialsFilePath (settings ig) in
  let r := fst (getProxmoxCredentials ig w) in
  let w' := snd (getProxmoxCredentials ig w) in
  ((exists err, r = Fail err) <->
     (exists ioerr, opened w path = Fail ioerr)
     \/ (exists rd derr, opened w path = OK rd
                         /\ snd (decode.Decode rd noCredentials) = Some derr))
  /\ (forall ioerr, opened w path = Fail ioerr ->
        exists err, r = Fail err
                    /\ Unwrap err = Some ioerr
                    /\ Contains (Error json_text err) path
                    /\ Contains (Error json_text err) "failed to open credentials file")
  /\ (forall rd derr,
        opened w path = OK rd ->
        snd (decode.Decode rd noCredentials) = Some derr ->
        exists err, r = Fail err
                    /\ Unwrap err = Some derr
                    /\ Contains (Error json_text err) path
                    /\ Contains (Error json_text err) "failed to decode credentials file")
  /\ (forall rd credentials,
        opened w path = OK rd ->
        decode.Decode rd noCredentials = (credentials, None) ->
        r = OK credentials)
  /\ descriptors w' = descriptors w
  /\ (forall f, fst (os_Open path w) = OK f ->
        fd f ∈ descriptors (snd (os_Open path w)) /\ fd f ∉ descriptors w').
Proof.
  intros path r w'. subst r w'.
  rewrite (getProxmoxCredentials_paths ig w). fold path. cbn [fst snd].
  assert (Hopen : forall ioerr,
    Contains (Error json_text (wrapError
      ("failed to open credentials file from path='" +:+ path +:+ "': ") ioerr)) path
    /\ Contains (Error json_text (wrapError
      ("failed to open credentials file from path='" +:+ path +:+ "': ") ioerr))
      "failed to open credentials file").
  { intros ioerr. split; [apply wrapError_Contains|].
    exists EmptyString, (" from path='" +:+ path +:+ "': " +:+ Error json_text ioerr).
    cbn [Error]. rewrite !append_assoc. reflexivity. }
  assert (Hdec : forall derr,
    Contains (Error json_text (wrapError
      ("failed to decode credentials file from path='" +:+ path +:+ "': ") derr)) path
    /\ Contains (Error json_text (wrapError
      ("failed to decode credentials file from path='" +:+ path +:+ "': ") derr))
      "failed to decode credentials file").
  { intros derr. split; [apply wrapError_Contains|].
    exists EmptyString, (" from path='" +:+ path +:+ "': " +:+ Error json_text derr).
    cbn [Error]. rewrite !append_assoc. reflexivity. }
  split; [|split; [|split; [|split; [|split]]]].
  - destruct (opened w path) as [rd|ioerr].
    + destruct (decode.Decode rd noCredentials) as [c [derr|]] eqn:Hd; cbn [snd].
      * split; [|intros _; eexists; reflexivity].
        intros _. right. exists rd, derr. split; [reflexivity | now rewrite Hd].
      * split.
        -- intros [err Herr]. discriminate Herr.
        -- intros [[ioerr Hio] | (rd' & derr & Hrd & Hnone)]; [discriminate Hio|].
           injection Hrd as <-. rewrite Hd in Hnone. discriminate Hnone.
    + split; [|intros _; eexists; reflexivity]. intros _. left. eexists. reflexivity.
  - intros ioerr ->. eexists. split; [reflexivity|]. split; [reflexivity|]. apply Hopen.
  - intros rd derr -> Hd.
    destruct (decode.Decode rd noCredentials) as [c e]. cbn [snd] in Hd. subst e.
    eexists. split; [reflexivity|]. split; [reflexivity|]. apply Hdec.
  - intros rd c -> ->. reflexivity.
  - reflexivity.
  - intros f Hf. unfold os_Open in *.
    destruct (files w !! path) as [[rd|errno]|]; cbn [fst snd] in *; try discriminate Hf.
    injection Hf as <-. cbn [fd descriptors]. pose proof (is_fresh (descriptors w)).
    split; [apply elem_of_union_l, elem_of_singleton; reflexivity | assumption].
Qed.

(** The three ways out on concrete files: no file, a file that breaks
    off, a complete file. *)
Lemma getProxmoxCredentials_errors_scenario :
  (exists err,
      fst (getProxmoxCredentials scenario.ig scenario.worldWithoutFile) = Fail err
      /\ Unwrap err = Some (PathError "open" scenario.path ENOENT))
  /\ (exists err,
      fst (getProxmoxCredentials scenario.ig (scenario.world scenario.brokenFile)) = Fail err
      /\ Unwrap err = Some (jsonError ErrUnexpectedEOF))
  /\ fst (getProxmoxCredentials scenario.ig (scenario.world scenario.tokenFile))
     = OK (mkCredentials "ci" "5ecret" "runner" EmptyString EmptyString EmptyString "pve")
  /\ descriptors (snd (getProxmoxCredentials scenario.ig (scenario.world scenario.tokenFile)))
     = ∅.
Proof.
  pose proof (getProxmoxCredentials_errors (fun _ => EmptyString) scenario.ig
                scenario.worldWithoutFile) as (_ & Hopen & _).
  pose proof (getProxmoxCredentials_errors (fun _ => EmptyString) scenario.ig
                (scenario.world scenario.brokenFile)) as (_ & _ & Hdecode & _).
  pose proof (getProxmoxCredentials_errors (fun _ => EmptyString) scenario.ig
                (scenario.world scenario.tokenFile)) as (_ & _ & _ & Hok & Hfd & _).
  split; [|split; [|split]].
  - destruct (Hopen (PathError "open" scenario.path ENOENT) eq_refl)
      as (err & Herr & Hun & _).
    exists err. split; assumption.
  - destruct (Hdecode (decode.mkReader scenario.brokenFile None)
                      (jsonError ErrUnexpectedEOF) eq_refl eq_refl)
      as (err & Herr & Hun & _).
    exists err. split; assumption.
  - apply (Hok (decode.mkReader scenario.tokenFile None)); reflexivity.
  - exact Hfd.
Defined.

(** ** Cluster client factory *)

Section ClientFactoryFacts.

Variable URL_ : Type.
Variable url_Parse : string -> result URL_.
Variable url_JoinPath : URL_ -> string -> URL_.
Variable url_String : URL_ -> string.

(** C2. When the credential record has a token identifier,
    [getProxmoxClient] builds the client with the option of an API
    token, whose token string is the user name, "@", the realm, "!" and
    the token identifier, and whose secret is the password field.  The
    options hold no login credentials. *)
Theorem getProxmoxClient_token (ig : InstanceGroup) (w w' : World)
    (url : URL_) (credentials : Credentials) :
  url_Parse (URL (settings ig)) = OK url ->
  getProxmoxCredentials ig w = (OK credentials, w') ->
  TokenID credentials <> EmptyString ->
  exists client,
    getProxmoxClient URL_ url_Parse url_JoinPath url_String ig w = (OK client, w')
    /\ proxmox.baseURL client = url_String (url_JoinPath url "/api2/json")
    /\ proxmox.options client
       = [ proxmox.WithAPIToken
             (Username credentials +:+ "@" +:+ Realm credentials +:+ "!"
              +:+ TokenID credentials)
             (Password credentials);
           proxmox.WithHTTPClient (InsecureSkipTLSVerify (settings ig)) ]
    /\ forall c, ~ In (proxmox.WithCredentials c) (proxmox.options client).
Proof.
  intros Hurl Hload Htoken.
  unfold getProxmoxClient. rewrite Hurl. run_world. rewrite Hload.
  destruct (String.eqb (TokenID credentials) EmptyString) eqn:Hempty.
  - apply String.eqb_eq in Hempty. contradiction.
  - eexists. split; [reflexivity|]. cbn [proxmox.baseURL proxmox.options].
    split; [reflexivity|]. split; [reflexivity|].
    intros c [Hin | [Hin | []]]; discriminate Hin.
Qed.

(** C3. When the credential record has no token identifier,
    [getProxmoxClient] builds the client with the option of login
    credentials, which copy the user name, the password, the path, the
    privileges and the realm of the record.  The options hold no API
    token. *)
Theorem getProxmoxClient_password (ig : InstanceGroup) (w w' : World)
    (url : URL_) (credentials : Credentials) :
  url_Parse (URL (settings ig)) = OK url ->
  getProxmoxCredentials ig w = (OK credentials, w') ->
  TokenID credentials = EmptyString ->
  exists client login,
    getProxmoxClient URL_ url_Parse url_JoinPath url_String ig w = (OK client, w')
    /\ proxmox.baseURL client = url_String (url_JoinPath url "/api2/json")
    /\ proxmox.options client
       = [ proxmox.WithCredentials login;
           proxmox.WithHTTPClient (InsecureSkipTLSVerify (settings ig)) ]
    /\ proxmox.Username login = Username credentials
    /\ proxmox.Password login = Password credentials
    /\ proxmox.Path login = Path credentials
    /\ proxmox.Privs login = Privs credentials
    /\ proxmox.Realm login = Realm credentials
    /\ proxmox.Otp login = EmptyString
    /\ forall tokenID secret,
         ~ In (proxmox.WithAPIToken tokenID secret) (proxmox.options client).
Proof.
  intros Hurl Hload Htoken.
  unfold getProxmoxClient. rewrite Hurl. run_world. rewrite Hload, Htoken.
  cbn [String.eqb].
  eexists. eexists. split; [reflexivity|]. cbn [proxmox.baseURL proxmox.options].
  repeat (split; [reflexivity|]).
  intros tokenID secret [Hin | [Hin | []]]; discriminate Hin.
Qed.

End ClientFactoryFacts.

(** The factory on the files of the scenario, with a [net/url] that keeps
    the text of the address. *)
Lemma getProxmoxClient_token_scenario :
  exists client,
    fst (getProxmoxClient string (fun s => OK s) (fun u p => u +:+ p) (fun u => u)
           scenario.ig (scenario.world scenario.tokenFile)) = OK client
    /\ proxmox.options client
       = [ proxmox.WithAPIToken "ci@pve!runner" "5ecret"; proxmox.WithHTTPClient false ].
Proof.
  destruct (getProxmoxClient_token string (fun s => OK s) (fun u p => u +:+ p) (fun u => u)
              scenario.ig (scenario.world scenario.tokenFile)
              (scenario.world scenario.tokenFile)
              "https://pve.example:8006"
              (mkCredentials "ci" "5ecret" "runner" EmptyString EmptyString EmptyString "pve"))
    as (client & Hclient & _ & Hoptions & _).
  - reflexivity.
  - vm_compute. reflexivity.
  - discriminate.
  - exists client. rewrite Hclient. split; [reflexivity | exact Hoptions].
Defined.

Lemma getProxmoxClient_password_scenario :
  exists client,
    fst (getProxmoxClient string (fun s => OK s) (fun u p => u +:+ p) (fun u => u)
           scenario.ig (scenario.world scenario.passwordFile)) = OK client
    /\ proxmox.options client
       = [ proxmox.WithCredentials
             (proxmox.mkCredentials "root" "hunter2" EmptyString "/vms" "VM.Audit" "pam");
           proxmox.WithHTTPClient false ].
Proof.
  destruct (getProxmoxClient_password string (fun s => OK s) (fun u p => u +:+ p)
              (fun u => u)
              scenario.ig (scenario.world scenario.passwordFile)
              (scenario.world scenario.passwordFile)
              "https://pve.example:8006"
              (mkCredentials "root" "hunter2" EmptyString EmptyString "/vms" "VM.Audit" "pam"))
    as (client & login & Hclient & _ & Hoptions & Hu & Hp & Hpath & Hprivs & Hrealm & Hotp & _).
  - reflexivity.
  - vm_compute. reflexivity.
  - reflexivity.
  - exists client. rewrite Hclient. split; [reflexivity|].
    rewrite Hoptions. destruct login; cbn in *. now subst.
Defined.

(** ** Session refresher *)

Lemma added_app (w w' : World) (events : list Event) :
  trace w' = (trace w ++ events)%list -> added w w' = events.
Proof. intros H. unfold added. rewrite H. apply drop_app_length. Qed.

(** Loading the credentials leaves the world as it is. *)
Lemma getProxmoxCredentials_world ig w : snd (getProxmoxCredentials ig w) = w.
Proof. now rewrite getProxmoxCredentials_paths. Qed.

(** One cycle of the refresher of [proxmox_session.go]: the trace grows
    by [cycleEvents]; the files, the descriptors and the wait group stay;
    the session ticket is the one answered, if one was. *)
Lemma refreshCycle_effect ig reply w :
  let w' := snd (refreshCycle ig reply w) in
  trace w'
  = (trace w ++ cycleEvents (Ticket w) (fst (getProxmoxCredentials ig w)) reply)%list
  /\ files w' = files w
  /\ descriptors w' = descriptors w
  /\ waitGroup w' = waitGroup w
  /\ Ticket w' = ticketAfter (Ticket w) (fst (getProxmoxCredentials ig w)) reply.
Proof.
  unfold refreshCycle, proxmox_Ticket, getTicket. run_world.
  rewrite (surjective_pairing (getProxmoxCredentials ig w)).
  rewrite getProxmoxCredentials_world.
  destruct (fst (getProxmoxCredentials ig w)) as [credentials|err];
    cbn [cycleEvents ticketAfter].
  - cbn. destruct (reply _) as [ticket|err]; cbn; rewrite <- ?app_assoc; auto 6.
  - cbn. auto 6.
Qed.

(** One cycle of the refresher of the second file. *)
Lemma part_000_refreshCycle_effect ig reply w :
  let w' := snd (part_000.refreshCycle ig reply w) in
  trace w'
  = (trace w
     ++ CallTicket (Ticket w) None
        :: match reply None with
           | Fail err => [LogError "failed to refresh proxmox session" "err" err]
           | OK _ => []
           end
     ++ [LogInfo "refreshed proxmox session"])%list
  /\ files w' = files w
  /\ descriptors w' = descriptors w
  /\ waitGroup w' = waitGroup w
  /\ Ticket w' = ticketAfter_part_000 (Ticket w) reply.
Proof.
  unfold part_000.refreshCycle, proxmox_Ticket, getTicket, ticketAfter_part_000. run_world.
  destruct (reply None) as [ticket|err]; cbn; rewrite <- ?app_assoc; auto 6.
Qed.

(** The loop, one received signal after the other. *)
Lemma refresherLoop_Interval cycle now reply later w :
  refresherLoop cycle (Interval now reply :: later) w
  = refresherLoop cycle later (snd (cycle reply (snd (setFiles now w)))).
Proof.
  cbn [refresherLoop]. run_world.
  now destruct (cycle reply _) as [[] w'].
Qed.

Lemma refresherLoop_waiting cycle before w :
  ~ In Shutdown before -> fst (refresherLoop cycle before w) = Waiting.
Proof.
  revert w. induction before as [|[|now reply] before IH]; intros w Hno.
  - reflexivity.
  - exfalso. apply Hno. now left.
  - rewrite refresherLoop_Interval. apply IH. intros Hin. apply Hno. now right.
Qed.

Lemma refresherLoop_app cycle before rest w :
  ~ In Shutdown before ->
  refresherLoop cycle (before ++ rest)%list w
  = refresherLoop cycle rest (snd (refresherLoop cycle before w)).
Proof.
  revert w. induction before as [|[|now reply] before IH]; intros w Hno.
  - reflexivity.
  - exfalso. apply Hno. now left.
  - cbn [app]. rewrite !refresherLoop_Interval. apply IH.
    intros Hin. apply Hno. now right.
Qed.

Lemma refresherLoop_returned cycle received w :
  fst (refresherLoop cycle received w) = Returned <-> In Shutdown received.
Proof.
  revert w. induction received as [|[|now reply] received IH]; intros w.
  - cbn. split; [discriminate | tauto].
  - cbn. split; auto.
  - rewrite refresherLoop_Interval, IH. cbn [In]. split; [auto|].
    intros [Heq | Hin]; [discriminate Heq | exact Hin].
Qed.

(** The loop leaves the wait group alone when the cycle does. *)
Lemma refresherLoop_waitGroup cycle received w :
  (forall reply w0, waitGroup (snd (cycle reply w0)) = waitGroup w0) ->
  waitGroup (snd (refresherLoop cycle received w)) = waitGroup w.
Proof.
  intros Hcycle. revert w. induction received as [|[|now reply] received IH]; intros w.
  - reflexivity.
  - reflexivity.
  - rewrite refresherLoop_Interval, IH, Hcycle. reflexivity.
Qed.

Lemma refreshCycle_unreadable ig reply w err :
  fst (getProxmoxCredentials ig w) = Fail err ->
  refreshCycle ig reply w
  = record (LogError "failed to refresh proxmox session, could not read credentials"
                     "err" err) w.
Proof.
  intros Hload. unfold refreshCycle. run_world.
  rewrite (surjective_pairing (getProxmoxCredentials ig w)).
  rewrite getProxmoxCredentials_world, Hload. reflexivity.
Qed.

(** C5. A cycle in which the credentials cannot be read is given up: the
    error is logged and nothing else happens in the cycle, no call of
    [Ticket] is made and the session ticket of the client stays; the loop
    does not return, it goes on with what its [select] receives next. *)
Theorem refreshCycle_unreadable_credentials (ig : InstanceGroup)
    (now : gmap string inode) (reply : Reply) (later : list Received)
    (w : World) (err : error) :
  fst (getProxmoxCredentials ig (snd (setFiles now w))) = Fail err ->
  let w' := snd (refreshCycle ig reply (snd (setFiles now w))) in
  added w w'
  = [LogError "failed to refresh proxmox session, could not read credentials" "err" err]
  /\ (forall cookie credentials, ~ In (CallTicket cookie credentials) (added w w'))
  /\ Ticket w' = Ticket w
  /\ runSessionTicketRefresher ig (Interval now reply :: later) w
     = runSessionTicketRefresher ig later w'
  /\ fst (runSessionTicketRefresher ig [Interval now reply] w) = Waiting.
Proof.
  intros Hload w'.
  assert (Hadded : added w w'
    = [LogError "failed to refresh proxmox session, could not read credentials" "err" err]).
  { apply added_app. subst w'. rewrite (refreshCycle_unreadable _ _ _ _ Hload). reflexivity. }
  split; [exact Hadded|]. split; [|split; [|split]].
  - intros cookie credentials. rewrite Hadded. intros [Hin | []]. discriminate Hin.
  - subst w'. rewrite (refreshCycle_unreadable _ _ _ _ Hload). reflexivity.
  - unfold runSessionTicketRefresher. now rewrite refresherLoop_Interval.
  - apply refresherLoop_waiting. intros [Hin | []]. discriminate Hin.
Qed.

(** The timer fires when the credential file is gone: one line in the
    log, and the loop waits again. *)
Lemma refreshCycle_unreadable_credentials_scenario :
  runSessionTicketRefresher scenario.ig [Interval ∅ refusing]
    (scenario.world scenario.passwordFile)
  = (Waiting,
     mkWorld ∅ ∅
       [LogError "failed to refresh proxmox session, could not read credentials" "err"
          (wrapError
             "failed to open credentials file from path='/etc/fleeting/credentials.json': "
             (PathError "open" "/etc/fleeting/credentials.json" ENOENT))]
       "PVE:root@pam:65F1A2B3::old" 0).
Proof.
  assert (Hload :
    fst (getProxmoxCredentials scenario.ig
           (snd (setFiles ∅ (scenario.world scenario.passwordFile))))
    = Fail (wrapError
              "failed to open credentials file from path='/etc/fleeting/credentials.json': "
              (PathError "open" "/etc/fleeting/credentials.json" ENOENT)))
    by reflexivity.
  destruct (refreshCycle_unreadable_credentials scenario.ig ∅ refusing []
              (scenario.world scenario.passwordFile) _ Hload) as (_ & _ & _ & Hloop & _).
  rewrite Hloop. reflexivity.
Defined.

(** C6. The goroutine of the refresher leaves its loop when, and only
    when, the [select] receives the shutdown trigger.  From the state any
    number of cycles has led to, receiving the trigger ends the loop at
    once: nothing of what might be received later is looked at, no
    further cycle runs, and [Done] takes the goroutine out of the wait
    group, whose counter is back at its value before the start, so that a
    [Wait] on a group that was empty returns.  Until then the goroutine is
    counted in and the loop waits. *)
Theorem refresher_shutdown (ig : InstanceGroup) (w : World)
    (before later : list Received) :
  ~ In Shutdown before ->
  let task := fst (startSessionTicketRefresher ig w) in
  let started := snd (startSessionTicketRefresher ig w) in
  let running := snd (runSessionTicketRefresher ig before started) in
  task before started = (Waiting, running)
  /\ waitGroup running = waitGroup w + 1
  /\ task (before ++ Shutdown :: later)%list started
     = (Returned, snd (WaitGroup_Done running))
  /\ trace (snd (task (before ++ Shutdown :: later)%list started)) = trace running
  /\ waitGroup (snd (task (before ++ Shutdown :: later)%list started)) = waitGroup w
  /\ (waitGroup w = 0 ->
      WaitGroup_Wait_returns running = false
      /\ WaitGroup_Wait_returns (snd (task (before ++ Shutdown :: later)%list started)) = true)
  /\ (forall received, fst (task received started) = Returned <-> In Shutdown received).
Proof.
  intros Hno task started running.
  assert (Hwg : waitGroup running = waitGroup w + 1).
  { subst running. unfold runSessionTicketRefresher.
    rewrite refresherLoop_waitGroup; [reflexivity|].
    intros reply w0. apply refreshCycle_effect. }
  assert (Hwait : task before started = (Waiting, running)).
  { subst task running. cbn [startSessionTicketRefresher fst]. unfold startSessionTicketRefresher.
    run_world. cbn [fst]. unfold goroutine. run_world. fold started.
    rewrite (surjective_pairing (runSessionTicketRefresher ig before started)).
    unfold runSessionTicketRefresher at 1.
    now rewrite (refresherLoop_waiting _ _ _ Hno). }
  assert (Hstop : task (before ++ Shutdown :: later)%list started
                  = (Returned, snd (WaitGroup_Done running))).
  { subst task running. unfold startSessionTicketRefresher.
    run_world. cbn [fst]. unfold goroutine. run_world. fold started.
    unfold runSessionTicketRefresher.
    rewrite (refresherLoop_app _ _ _ _ Hno). reflexivity. }
  split; [exact Hwait|]. split; [exact Hwg|]. split; [exact Hstop|].
  rewrite Hstop. cbn [snd]. split; [reflexivity|]. split; [|split].
  - unfold WaitGroup_Done, WaitGroup_Add. cbn [waitGroup snd]. lia.
  - intros Hzero. unfold WaitGroup_Wait_returns, WaitGroup_Done, WaitGroup_Add.
    cbn [waitGroup snd]. rewrite Hwg, Hzero. split; reflexivity.
  - intros received. subst task. unfold startSessionTicketRefresher.
    run_world. cbn [fst]. unfold goroutine. run_world. fold started.
    rewrite <- (refresherLoop_returned (refreshCycle ig) received started).
    unfold runSessionTicketRefresher.
    destruct (refresherLoop (refreshCycle ig) received started) as [[|] w1]; cbn [fst].
    + split; intros H; (reflexivity || exact H).
    + split; intros _; reflexivity.
Qed.

(** The refresher is started and the trigger is received at once, ahead of
    a timer: no cycle runs, and the wait group is empty again. *)
Lemma refresher_shutdown_scenario :
  fst (startSessionTicketRefresher scenario.ig (scenario.world scenario.passwordFile))
      [Shutdown; Interval ∅ refusing]
      (snd (startSessionTicketRefresher scenario.ig (scenario.world scenario.passwordFile)))
  = (Returned, scenario.world scenario.passwordFile)
  /\ WaitGroup_Wait_returns
       (snd (startSessionTicketRefresher scenario.ig (scenario.world scenario.passwordFile)))
     = false.
Proof.
  assert (Hno : ~ In Shutdown []) by (intros []).
  destruct (refresher_shutdown scenario.ig (scenario.world scenario.passwordFile)
              [] [Interval ∅ refusing] Hno) as (_ & _ & Hstop & _ & _ & Hwait & _).
  split.
  - cbn [app] in Hstop. rewrite Hstop. reflexivity.
  - apply Hwait. reflexivity.
Defined.

(** C7. A cycle in which the call of [Ticket] fails: the error is logged,
    and after it the line "refreshed proxmox session" is logged all the
    same, in the refresher of [proxmox_session.go] and in the refresher of
    the second file. *)
Theorem refreshCycle_failed_renewal_logs_success :
  added (scenario.world scenario.passwordFile)
        (snd (refreshCycle scenario.ig refusing (scenario.world scenario.passwordFile)))
  = [ CallTicket "PVE:root@pam:65F1A2B3::old"
                   (Some (proxmox.mkCredentials "root" EmptyString EmptyString
                                                EmptyString EmptyString EmptyString));
      LogError "failed to refresh proxmox session" "err"
               (errorString "401 authentication failure");
      LogInfo "refreshed proxmox session" ]
  /\ added (scenario.world scenario.passwordFile)
           (snd (part_000.refreshCycle scenario.ig refusing
                   (scenario.world scenario.passwordFile)))
     = [ CallTicket "PVE:root@pam:65F1A2B3::old" None;
         LogError "failed to refresh proxmox session" "err"
                  (errorString "401 authentication failure");
         LogInfo "refreshed proxmox session" ].
Proof.
  split.
  - apply added_app.
    destruct (refreshCycle_effect scenario.ig refusing
                (scenario.world scenario.passwordFile)) as (Htrace & _).
    rewrite Htrace. reflexivity.
  - apply added_app.
    destruct (part_000_refreshCycle_effect scenario.ig refusing
                (scenario.world scenario.passwordFile)) as (Htrace & _).
    rewrite Htrace. reflexivity.
Qed.



(** ** Decoding the credential record *)

(** The field a key is stored into is a field the key names. *)
Lemma fieldOf_keyIs key f : decode.fieldOf key = Some f -> decode.keyIs key f = true.
Proof.
  unfold decode.fieldOf.
  destruct (find (fun f0 => String.eqb (jsonName f0) key) fields) as [g|] eqn:Hexact.
  - intros [= <-]. apply find_some in Hexact as [_ Heq].
    apply String.eqb_eq in Heq. unfold decode.keyIs. rewrite Heq. apply String.eqb_refl.
  - intros Hfold. now apply find_some in Hfold as [_ Hkey].
Qed.

Lemma getField_setField_other f g s c :
  f <> g -> getField f (setField g s c) = getField f c.
Proof. destruct f, g; intros Hne; try reflexivity; contradiction. Qed.

(** A member whose key does not name [f] leaves [f] as it is. *)
Lemma member_other f st kv :
  decode.keyIs (fst kv) f = false ->
  getField f (fst (decode.member st kv)) = getField f (fst st).
Proof.
  intros Hkey. destruct st as [c saved]. unfold decode.member.
  destruct (decode.fieldOf (fst kv)) as [g|] eqn:Hg; [|reflexivity].
  assert (Hne : f <> g).
  { intros ->. apply fieldOf_keyIs in Hg. congruence. }
  destruct (snd kv); cbn [fst]; try reflexivity.
  now apply getField_setField_other.
Qed.

Lemma members_absent f members st :
  present f members = false ->
  getField f (fst (fold_left decode.member members st)) = getField f (fst st).
Proof.
  revert st. induction members as [|kv members IH]; intros st Habsent; [reflexivity|].
  cbn [present existsb] in Habsent. apply orb_false_iff in Habsent as [Hkv Hrest].
  cbn [fold_left]. rewrite IH by exact Hrest. now apply member_other.
Qed.

(** A member that names no field, or holds a string or [null], raises no
    error. *)
Lemma member_storable st kv :
  decode.fieldOf (fst kv) = None \/ storable (snd kv) = true ->
  snd (decode.member st kv) = snd st.
Proof.
  destruct st as [c saved]. unfold decode.member.
  intros [Hnone | Hstore].
  - now rewrite Hnone.
  - destruct (decode.fieldOf (fst kv)); [|reflexivity].
    destruct (snd kv); try discriminate Hstore; reflexivity.
Qed.

Lemma members_storable members st :
  Forall (fun kv => decode.fieldOf (fst kv) = None \/ storable (snd kv) = true) members ->
  snd (fold_left decode.member members st) = snd st.
Proof.
  intros Hall. revert st. induction Hall as [|kv members Hkv _ IH]; intros st; [reflexivity|].
  cbn [fold_left]. rewrite IH. now apply member_storable.
Qed.

(** [Decode] of an input whose first value is an object. *)
Lemma Decode_object rd members rest c :
  json.parse (decode.data rd) = json.Done (json.Object members) rest ->
  decode.Decode rd c
  = (fst (fold_left decode.member members (c, None)),
     option_map jsonError (snd (fold_left decode.member members (c, None)))).
Proof.
  intros Hparse. unfold decode.Decode. rewrite Hparse. cbn [decode.endsLate decode.unmarshal].
  destruct (fold_left decode.member members (c, None)) as [c' e]. cbn [fst snd].
  destruct rest, (decode.failure rd); reflexivity.
Qed.

(** C9, as the code has it.  Loading a credential record enforces no
    required field.  When the file holds an object in which every key that
    names a field holds a string or [null], loading succeeds, whichever
    fields are absent, the user name and the password among them; and each
    field that no key of the object names is empty in the record. *)
Theorem getProxmoxCredentials_absent_fields (ig : InstanceGroup) (w : World)
    (rd : decode.Reader) (members : list (string * json.value)) (rest : string) :
  opened w (CredentialsFilePath (settings ig)) = OK rd ->
  json.parse (decode.data rd) = json.Done (json.Object members) rest ->
  Forall (fun kv => decode.fieldOf (fst kv) = None \/ storable (snd kv) = true) members ->
  exists credentials,
    fst (getProxmoxCredentials ig w) = OK credentials
    /\ forall f, present f members = false -> getField f credentials = EmptyString.
Proof.
  intros Hopen Hparse Hall.
  rewrite getProxmoxCredentials_paths. cbn zeta. rewrite Hopen.
  rewrite (Decode_object _ _ _ _ Hparse), (members_storable _ _ Hall). cbn [snd option_map fst].
  eexists. split; [reflexivity|].
  intros f Habsent. rewrite (members_absent _ _ _ Habsent). now destruct f.
Qed.

(** A file with the token identifier alone loads; the user name and the
    password of the record are empty. *)
Lemma getProxmoxCredentials_absent_fields_scenario :
  exists credentials,
    fst (getProxmoxCredentials scenario.ig (scenario.world scenario.tokenOnlyFile))
    = OK credentials
    /\ Username credentials = EmptyString
    /\ Password credentials = EmptyString.
Proof.
  assert (Hall : Forall (fun kv : string * json.value =>
                           decode.fieldOf (fst kv) = None \/ storable (snd kv) = true)
                        [("token", json.Str "runner")]).
  { constructor; [right; reflexivity | constructor]. }
  destruct (getProxmoxCredentials_absent_fields scenario.ig
              (scenario.world scenario.tokenOnlyFile)
              (decode.mkReader scenario.tokenOnlyFile None)
              [("token", json.Str "runner")] EmptyString eq_refl eq_refl Hall)
    as (credentials & Hload & Hempty).
  exists credentials. split; [exact Hload|]. split.
  - apply (Hempty fUsername). reflexivity.
  - apply (Hempty fPassword). reflexivity.
Defined.

(** C9, as the specification has it, fails: the file with the token
    identifier alone has neither user name nor password, and loads. *)
Lemma required_fields_not_enforced :
  json.parse scenario.tokenOnlyFile
  = json.Done (json.Object [("token", json.Str "runner")]) EmptyString
  /\ present fUsername [("token", json.Str "runner")] = false
  /\ present fPassword [("token", json.Str "runner")] = false
  /\ fst (getProxmoxCredentials scenario.ig (scenario.world scenario.tokenOnlyFile))
     = OK (mkCredentials EmptyString EmptyString "runner" EmptyString EmptyString
                         EmptyString EmptyString)
  /\ ~ requiredFieldsEnforced.
Proof.
  split; [reflexivity|]. split; [reflexivity|]. split; [reflexivity|]. split; [reflexivity|].
  intros Henforced.
  destruct (Henforced scenario.ig (scenario.world scenario.tokenOnlyFile)
              (decode.mkReader scenario.tokenOnlyFile None)
              [("token", json.Str "runner")] EmptyString eq_refl eq_refl
              (or_introl eq_refl)) as [err Herr].
  discriminate Herr.
Qed.

(** ** The scanner

    The scanner consumes its input: what it leaves over is shorter than
    what it was given, and the fuel of [json.parse] is enough, on every
    input. *)

Lemma below_mono {A} (n m : nat) (x : json.scan A) :
  (n <= m)%nat -> below n x -> below m x.
Proof. destruct x; cbn; auto. lia. Qed.

Lemma below_bind {A B} (n m : nat) (x : json.scan A) (k : A -> string -> json.scan B) :
  below n x ->
  (forall a rest, (String.length rest < n)%nat -> below m (k a rest)) ->
  below m (json.bind x k).
Proof. destruct x; cbn; auto. Qed.

Lemma below_emit (n : nat) (pre : string) (x : json.scan string) :
  below n x -> below n (json.emit pre x).
Proof. destruct x; cbn; auto. Qed.

Lemma skipSpace_length s : (String.length (json.skipSpace s) <= String.length s)%nat.
Proof.
  induction s as [|c r IH]; cbn [json.skipSpace]; [lia|].
  destruct (json.isSpace c); cbn [String.length]; lia.
Qed.

Lemma unquote_below_aux n :
  forall s k, (String.length s <= n)%nat -> below (String.length s) (json.unquote k s).
Proof.
  induction n as [|n IH]; intros s k Hn.
  - destruct s; [exact I | cbn in Hn; lia].
  - destruct s as [|c r]; [exact I|]. cbn [String.length] in Hn |- *.
    assert (Hrec : forall t pre k', (String.length t <= String.length r)%nat ->
                     below (S (String.length r)) (json.emit pre (json.unquote k' t))).
    { intros t pre k' Ht. apply below_emit. apply (below_mono (String.length t)); [lia|].
      apply IH. lia. }
    clear IH. cbn [json.unquote].
    scan_cases ltac:(first [ apply Hrec; cbn [String.length]; lia
                           | cbn [below String.length]; lia ]).
Qed.

Lemma unquote_below s k : below (String.length s) (json.unquote k s).
Proof. now apply (unquote_below_aux (String.length s)). Qed.

Lemma skipSpace_String s c r :
  json.skipSpace s = String c r -> (String.length r < String.length s)%nat.
Proof.
  intros H. pose proof (skipSpace_length s) as Hle. rewrite H in Hle.
  cbn [String.length] in Hle. lia.
Qed.

Lemma closes_length c s r :
  json.closes c s = Some r -> (String.length r < String.length s)%nat.
Proof.
  unfold json.closes. destruct (json.skipSpace s) as [|c' r'] eqn:Hs; [discriminate|].
  destruct (Ascii.eqb c' c); [|discriminate]. intros [= <-].
  now apply skipSpace_String in Hs.
Qed.

Lemma number_below st s : below (S (String.length s)) (json.number st s).
Proof.
  revert st. induction s as [|c r IH]; intros st; cbn [json.number String.length].
  - destruct (json.numEnd st); cbn; [lia | exact I].
  - destruct (json.numStep st c) as [st'|].
    + apply below_emit. eapply below_mono; [|apply IH]. lia.
    + destruct (json.numEnd st); cbn; [lia | exact I].
Qed.

Lemma literal_below lit s : below (S (String.length s)) (json.literal lit s).
Proof.
  revert s. induction lit as [|l lit IH]; intros s; cbn [json.literal].
  - cbn. lia.
  - destruct s as [|c r]; [exact I|]. destruct (Ascii.eqb c l); [|exact I].
    eapply below_mono; [|apply IH]. cbn [String.length]. lia.
Qed.

Lemma parse_below fuel :
  (forall d s, (2 * String.length s + 1 <= fuel)%nat ->
               below (String.length s) (json.parseValue fuel d s))
  /\ (forall d s, (2 * String.length s + 1 <= fuel)%nat ->
                  below (String.length s) (json.parseMembers fuel d s))
  /\ (forall d s, (2 * String.length s + 2 <= fuel)%nat ->
                  below (String.length s) (json.parseElements fuel d s)).
Proof.
  induction fuel as [|fuel (IHV & IHM & IHE)].
  - repeat split; intros d s Hf; lia.
  - split; [|split]; intros d s Hf.
    + cbn [json.parseValue].
      destruct (json.skipSpace s) as [|c r] eqn:Hs; [exact I|].
      apply skipSpace_String in Hs.
      assert (Hdone : forall (A : Type) (a : A) rest,
                (String.length rest < String.length r)%nat ->
                below (String.length s) (json.Done a rest)).
      { intros A a rest Hr. cbn. lia. }
      assert (Hnum : forall pre st,
                below (String.length s)
                  (json.bind (json.emit pre (json.number st r))
                     (fun lit rest => json.Done (json.Number lit) rest))).
      { intros pre st. eapply below_bind; [apply below_emit, number_below|].
        intros a rest Hr. cbn. lia. }
      repeat match goal with
             | |- context [if ?b then _ else _] => destruct b
             end; try exact I; try apply Hnum.
      * destruct (json.closes _ r) as [r'|] eqn:Hc.
        -- apply closes_length in Hc. cbn. lia.
        -- eapply below_bind; [apply IHM; lia|]. intros; apply Hdone; lia.
      * destruct (json.closes _ r) as [r'|] eqn:Hc.
        -- apply closes_length in Hc. cbn. lia.
        -- eapply below_bind; [apply IHE; lia|]. intros; apply Hdone; lia.
      * eapply below_bind; [apply unquote_below|]. intros; apply Hdone; lia.
      * eapply below_bind; [apply literal_below|]. intros a rest Hr; cbn; lia.
      * eapply below_bind; [apply literal_below|]. intros a rest Hr; cbn; lia.
      * eapply below_bind; [apply literal_below|]. intros a rest Hr; cbn; lia.
    + cbn [json.parseMembers].
      destruct (json.skipSpace s) as [|c r] eqn:Hs; [exact I|].
      apply skipSpace_String in Hs.
      destruct (Ascii.eqb c _); [|exact I].
      eapply below_bind; [apply unquote_below|]. intros key r1 Hr1.
      destruct (json.skipSpace r1) as [|c2 r2] eqn:Hs1; [exact I|].
      apply skipSpace_String in Hs1.
      destruct (Ascii.eqb c2 _); [|exact I].
      eapply below_bind; [apply IHV; lia|]. intros v r3 Hr3.
      destruct (json.skipSpace r3) as [|c4 r4] eqn:Hs3; [exact I|].
      apply skipSpace_String in Hs3.
      destruct (Ascii.eqb c4 _).
      * eapply below_bind; [apply IHM; lia|]. intros ms rest Hrest. cbn. lia.
      * destruct (Ascii.eqb c4 _); [cbn; lia | exact I].
    + cbn [json.parseElements].
      eapply below_bind; [apply IHV; lia|]. intros v r1 Hr1.
      destruct (json.skipSpace r1) as [|c r2] eqn:Hs1; [exact I|].
      apply skipSpace_String in Hs1.
      destruct (Ascii.eqb c _).
      * eapply below_bind; [apply IHE; lia|]. intros vs rest Hrest. cbn. lia.
      * destruct (Ascii.eqb c _); [cbn; lia | exact I].
Qed.

(** [json.parse] never runs out of fuel. *)
Lemma parse_fuel s : json.parse s <> json.OutOfFuel.
Proof.
  unfold json.parse, json.enough.
  destruct (parse_below (2 * String.length s + 2)) as (HV & _ & _).
  specialize (HV 0%N s ltac:(lia)).
  intros Hout. rewrite Hout in HV. exact HV.
Qed.

(** ** The decoder on concrete inputs *)

(** What follows the first value is not looked at. *)
Example parse_first_value :
  json.parse ("[1, -2.5e3, true, null, {}] trailing")
  = json.Done
      (json.Array [json.Number "1"; json.Number "-2.5e3"; json.Bool true; json.Null;
                   json.Object []])
      " trailing".
Proof. reflexivity. Qed.

Example parse_trailing_comma :
  json.parse "[1,]" = json.Invalid "looking for beginning of value".
Proof. reflexivity. Qed.

Example parse_cut_off : json.parse "[1, 2" = json.Short.
Proof. reflexivity. Qed.

(** Escapes: a surrogate pair is one rune, a lone surrogate is replaced. *)
Example parse_escapes :
  json.parse (scenario.quoted "a\n\u00e9\ud83d\ude00\ud800")
  = json.Done
      (json.Str ("a" +:+ json.byte 10 +:+ json.byte 195 +:+ json.byte 169
                 +:+ json.byte 240 +:+ json.byte 159 +:+ json.byte 152 +:+ json.byte 128
                 +:+ json.RuneError))
      EmptyString.
Proof. reflexivity. Qed.

(** Keys are matched up to case; keys that name no field are passed over. *)
Example Decode_key_case :
  decode.Decode
    (decode.mkReader (scenario.object [("USERNAME", "root"); ("comment", "x")]) None)
    noCredentials
  = (setField fUsername "root" noCredentials, None).
Proof. reflexivity. Qed.

Example Decode_null :
  decode.Decode (decode.mkReader "null" None) noCredentials = (noCredentials, None).
Proof. reflexivity. Qed.

Example Decode_wrong_type :
  decode.Decode (decode.mkReader ("{" +:+ scenario.quoted "username" +:+ ": 7}") None)
                noCredentials
  = (noCredentials, Some (jsonError (UnmarshalTypeError "number" "username"))).
Proof. reflexivity. Qed.

Example Decode_array :
  decode.Decode (decode.mkReader "[]" None) noCredentials
  = (noCredentials, Some (jsonError (UnmarshalTypeError "array" EmptyString))).
Proof. reflexivity. Qed.

Example Decode_empty_file :
  decode.Decode (decode.mkReader EmptyString None) noCredentials
  = (noCredentials, Some (jsonError EOF)).
Proof. reflexivity. Qed.

(** A directory opens, and reading it fails. *)
Example Decode_read_error :
  decode.Decode (decode.mkReader EmptyString (Some (errorString "is a directory")))
                noCredentials
  = (noCredentials, Some (errorString "is a directory")).
Proof. reflexivity. Qed.

(** * Further properties of the code *)

(** ** Instance resolver: what its results tell *)

Lemma isInstanceb_spec vmid m : isInstanceb vmid m = true <-> isInstance vmid m.
Proof.
  unfold isInstanceb, isInstance. rewrite andb_true_iff, String.eqb_eq, Z.eqb_eq. tauto.
Qed.

Lemma isInstanceb_false vmid m : isInstanceb vmid m = false <-> ~ isInstance vmid m.
Proof.
  rewrite <- isInstanceb_spec. destruct (isInstanceb vmid m); split; congruence.
Qed.

(** The lookup on a node fails with a wrapped error, never with the bare
    [ErrNotFound]. *)
Lemma getProxmoxVMOnNode_wraps ig vmid nodeName err :
  getProxmoxVMOnNode ig vmid nodeName = Fail err -> exists prefix e, err = wrapError prefix e.
Proof.
  unfold getProxmoxVMOnNode.
  destruct (proxmox.Node_ (cluster ig) nodeName) as [node|e]; [|intros [= <-]; eauto].
  destruct (proxmox.VirtualMachine_ (cluster ig) node vmid) as [vm|e];
    [discriminate | intros [= <-]; eauto].
Qed.

(** Where the scan of the members ends. *)
Lemma scanMembers_split ig vmid members :
  (Forall (fun x => ~ isInstance vmid x) members
   /\ scanMembers ig vmid members = Fail ErrNotFound)
  \/ exists before m after,
       members = (before ++ m :: after)%list
       /\ Forall (fun x => ~ isInstance vmid x) before
       /\ isInstance vmid m
       /\ scanMembers ig vmid members = getProxmoxVMOnNode ig vmid (proxmox.Node m).
Proof.
  induction members as [|x members IH].
  - left. split; [constructor | reflexivity].
  - destruct (isInstanceb vmid x) eqn:Hx.
    + apply isInstanceb_spec in Hx. right. exists [], x, members.
      split; [reflexivity|]. split; [constructor|]. split; [exact Hx|].
      now apply scanMembers_hit.
    + apply isInstanceb_false in Hx. rewrite (scanMembers_skip _ _ _ _ Hx).
      destruct IH as [[Hall Hnf] | (before & m & after & -> & Hall & Hm & Hscan)].
      * left. split; [now constructor | exact Hnf].
      * right. exists (x :: before), m, after.
        split; [reflexivity|]. split; [now constructor|]. split; assumption.
Qed.

(** X1. [getProxmoxVM] returns the bare [ErrNotFound] exactly when the
    pool was fetched and none of its members is of type "qemu" with the id
    asked for: a pool that cannot be fetched, a node or a machine that
    cannot be fetched give other errors. *)
Theorem getProxmoxVM_not_found_iff (ig : InstanceGroup) (vmid : Z) :
  getProxmoxVM ig vmid = Fail ErrNotFound <->
  exists members,
    proxmox.Pool_ (cluster ig) (Pool (settings ig)) = OK (proxmox.mkPool members)
    /\ Forall (fun m => isInstanceb vmid m = false) members.
Proof.
  split.
  - unfold getProxmoxVM, getProxmoxPool.
    destruct (proxmox.Pool_ (cluster ig) (Pool (settings ig))) as [[members]|e];
      [|discriminate].
    cbn [proxmox.Members]. intros Hscan. exists members. split; [reflexivity|].
    destruct (scanMembers_split ig vmid members)
      as [[Hall _] | (before & m & after & _ & _ & _ & Hon)].
    + eapply Forall_impl; [exact Hall|]. intros m. apply isInstanceb_false.
    + rewrite Hon in Hscan. apply getProxmoxVMOnNode_wraps in Hscan as (p & e & He).
      discriminate He.
  - intros (members & Hpool & Hall). rewrite (getProxmoxVM_pool _ _ _ Hpool).
    apply scanMembers_none. eapply Forall_impl; [exact Hall|].
    intros m. apply isInstanceb_false.
Qed.

(** X2. A machine that [getProxmoxVM] returns is the one the cluster gave
    for the requested id on the node of the first member of the pool that
    is of type "qemu" and has the id. *)
Theorem getProxmoxVM_found (ig : InstanceGroup) (vmid : Z) (vm : proxmox.VirtualMachine) :
  getProxmoxVM ig vmid = OK vm ->
  exists before m after node,
    proxmox.Pool_ (cluster ig) (Pool (settings ig))
    = OK (proxmox.mkPool (before ++ m :: after)%list)
    /\ Forall (fun x => isInstanceb vmid x = false) before
    /\ proxmox.Type_ m = "qemu"
    /\ proxmox.VMID m = GoInt.uint64 vmid
    /\ proxmox.Node_ (cluster ig) (proxmox.Node m) = OK node
    /\ proxmox.VirtualMachine_ (cluster ig) node vmid = OK vm.
Proof.
  unfold getProxmoxVM, getProxmoxPool.
  destruct (proxmox.Pool_ (cluster ig) (Pool (settings ig))) as [[members]|e];
    [|discriminate].
  cbn [proxmox.Members]. intros Hscan.
  destruct (scanMembers_split ig vmid members)
    as [[_ Hnf] | (before & m & after & -> & Hall & [Hty Hid] & Hon)].
  - rewrite Hnf in Hscan. discriminate Hscan.
  - rewrite Hon in Hscan. unfold getProxmoxVMOnNode in Hscan.
    destruct (proxmox.Node_ (cluster ig) (proxmox.Node m)) as [node|e] eqn:Hnode;
      [|discriminate].
    destruct (proxmox.VirtualMachine_ (cluster ig) node vmid) as [vm'|e] eqn:Hvm;
      [|discriminate].
    injection Hscan as ->. exists before, m, after, node.
    split; [reflexivity|]. split.
    + eapply Forall_impl; [exact Hall|]. intros x. apply isInstanceb_false.
    + auto.
Qed.

Lemma getProxmoxVM_found_scenario :
  exists m node,
    In m scenario.members
    /\ proxmox.Node m = "pve2"
    /\ proxmox.Node_ scenario.cluster (proxmox.Node m) = OK node
    /\ proxmox.VirtualMachine_ scenario.cluster node 105
       = OK (proxmox.mkVirtualMachine "pve2" 105).
Proof.
  destruct (getProxmoxVM_found scenario.ig 105 (proxmox.mkVirtualMachine "pve2" 105) eq_refl)
    as (before & m & after & node & Hpool & Hbefore & Hty & Hid & Hnode & Hvm).
  injection Hpool as Hmembers.
  destruct before as [|b0 before]; [injection Hmembers as <- _; discriminate Hty|].
  injection Hmembers as <- Hmembers.
  destruct before as [|b1 before].
  - injection Hmembers as <- _. exists (proxmox.mkClusterResource "qemu" 105 "pve2"), node.
    split; [right; left; reflexivity|]. split; [reflexivity|]. split; assumption.
  - injection Hmembers as <- Hmembers.
    apply Forall_cons in Hbefore as [_ Hbefore]. apply Forall_cons in Hbefore as [Hb1 _].
    vm_compute in Hb1. discriminate Hb1.
Defined.

(** X3. Every error of [getProxmoxVM] other than [ErrNotFound] wraps the
    error of the call to the cluster that failed, behind a text that names
    what was asked for: the pool, when the pool could not be fetched; or,
    the pool fetched, the node of the first member of the pool that is of
    type "qemu" with the requested id, when that node could not be
    fetched; or the id, in decimal, and that node, when the machine could
    not be fetched on it.  [ErrNotFound] comes with a pool that has no
    such member. *)
Theorem getProxmoxVM_errors (ig : InstanceGroup) (vmid : Z) (err : error) :
  getProxmoxVM ig vmid = Fail err ->
  (err = ErrNotFound
   /\ exists members,
        proxmox.Pool_ (cluster ig) (Pool (settings ig)) = OK (proxmox.mkPool members)
        /\ Forall (fun x => isInstanceb vmid x = false) members)
  \/ (exists e,
        proxmox.Pool_ (cluster ig) (Pool (settings ig)) = Fail e
        /\ err = wrapError ("failed to get pool id='" +:+ Pool (settings ig) +:+ "': ") e)
  \/ (exists before m after,
        proxmox.Pool_ (cluster ig) (Pool (settings ig))
        = OK (proxmox.mkPool (before ++ m :: after)%list)
        /\ Forall (fun x => isInstanceb vmid x = false) before
        /\ proxmox.Type_ m = "qemu"
        /\ proxmox.VMID m = GoInt.uint64 vmid
        /\ ((exists e,
               proxmox.Node_ (cluster ig) (proxmox.Node m) = Fail e
               /\ err = wrapError ("failed to get node='" +:+ proxmox.Node m +:+ "': ") e)
            \/ (exists node e,
                  proxmox.Node_ (cluster ig) (proxmox.Node m) = OK node
                  /\ proxmox.VirtualMachine_ (cluster ig) node vmid = Fail e
                  /\ err = wrapError ("failed to get vm='" +:+ pretty vmid +:+ "' on node='"
                                      +:+ proxmox.Node m +:+ "': ") e))).
Proof.
  unfold getProxmoxVM, getProxmoxPool.
  destruct (proxmox.Pool_ (cluster ig) (Pool (settings ig))) as [[members]|e].
  - cbn [proxmox.Members]. intros Hscan.
    destruct (scanMembers_split ig vmid members)
      as [[Hall Hnf] | (before & m & after & -> & Hall & [Hty Hid] & Hon)].
    + left. split; [congruence|]. exists members. split; [reflexivity|].
      eapply Forall_impl; [exact Hall|]. intros x. apply isInstanceb_false.
    + right. right. exists before, m, after. split; [reflexivity|].
      split; [eapply Forall_impl; [exact Hall|]; intros x; apply isInstanceb_false|].
      split; [exact Hty|]. split; [exact Hid|].
      rewrite Hon in Hscan. unfold getProxmoxVMOnNode in Hscan.
      destruct (proxmox.Node_ (cluster ig) (proxmox.Node m)) as [node|e] eqn:Hnode.
      * destruct (proxmox.VirtualMachine_ (cluster ig) node vmid) as [vm|e] eqn:Hvm;
          [discriminate|].
        injection Hscan as <-. right. exists node, e. auto.
      * injection Hscan as <-. left. exists e. auto.
  - intros [= <-]. right. left. exists e. auto.
Qed.

(** The pool of the scenario in front of a cluster that has lost node
    pve2: the error names the node of the instance, the second member of
    the pool. *)
Lemma getProxmoxVM_errors_scenario :
  let lost := mkInstanceGroup (settings scenario.ig)
                (proxmox.mkCluster
                   (fun _ => OK (proxmox.mkPool scenario.members))
                   (fun _ => Fail (errorString "500 no such cluster node"))
                   (proxmox.VirtualMachine_ scenario.cluster)) in
  getProxmoxVM lost 105
  = Fail (wrapError "failed to get node='pve2': " (errorString "500 no such cluster node"))
  /\ exists m after,
       scenario.members = (proxmox.mkClusterResource "lxc" 105 "pve1" :: m :: after)%list
       /\ proxmox.Node m = "pve2".
Proof.
  intros lost.
  destruct (getProxmoxVM_errors lost 105
              (wrapError "failed to get node='pve2': " (errorString "500 no such cluster node"))
              eq_refl)
    as [[H _] | [(e & H & _) | (before & m & after & Hpool & _ & _ & _ & _)]].
  - discriminate H.
  - discriminate H.
  - split; [reflexivity|]. eexists. eexists. split; reflexivity.
Defined.

(** The scan asks the cluster for nodes and machines only. *)
Lemma scanMembers_withMembers ig vmid pool members :
  scanMembers (withMembers ig pool) vmid members = scanMembers ig vmid members.
Proof.
  induction members as [|x members IH]; [reflexivity|].
  cbn [scanMembers]. now rewrite IH.
Qed.

Lemma scanMembers_first_only ig vmid members :
  scanMembers ig vmid members
  = scanMembers ig vmid (List.firstn 1 (List.filter (isInstanceb vmid) members)).
Proof.
  induction members as [|x members IH]; [reflexivity|].
  cbn [List.filter]. destruct (isInstanceb vmid x) eqn:Hx.
  - cbn [List.firstn]. apply isInstanceb_spec in Hx.
    now rewrite !(scanMembers_hit _ _ _ _ Hx).
  - apply isInstanceb_false in Hx. rewrite (scanMembers_skip _ _ _ _ Hx). exact IH.
Qed.

(** X4. Only the first member of type "qemu" with the requested id
    counts: [getProxmoxVM] returns the same on the pool reduced to that one
    member (or to no member, when there is none), whatever else the pool
    holds and in whatever order. *)
Theorem getProxmoxVM_first_instance_only (ig : InstanceGroup) (vmid : Z)
    (members : list proxmox.ClusterResource) :
  proxmox.Pool_ (cluster ig) (Pool (settings ig)) = OK (proxmox.mkPool members) ->
  getProxmoxVM ig vmid
  = getProxmoxVM
      (withMembers ig (List.firstn 1 (List.filter (isInstanceb vmid) members))) vmid.
Proof.
  intros Hpool. rewrite (getProxmoxVM_pool _ _ _ Hpool).
  rewrite (getProxmoxVM_pool (withMembers ig _) vmid _ eq_refl).
  rewrite scanMembers_withMembers. apply scanMembers_first_only.
Qed.

Lemma getProxmoxVM_first_instance_only_scenario :
  getProxmoxVM scenario.ig 105
  = getProxmoxVM (withMembers scenario.ig [proxmox.mkClusterResource "qemu" 105 "pve2"]) 105.
Proof.
  exact (getProxmoxVM_first_instance_only scenario.ig 105 scenario.members eq_refl).
Defined.

Lemma getProxmoxVM_not_found_iff_scenario :
  getProxmoxVM scenario.ig 999 = Fail ErrNotFound.
Proof.
  apply (getProxmoxVM_not_found_iff scenario.ig 999).
  exists scenario.members. split; [reflexivity|].
  unfold scenario.members. repeat constructor.
Defined.

(** ** Cluster client factory: errors and what the client is made of *)

Section ClientFactoryOutcome.

Variable URL_ : Type.
Variable url_Parse : string -> result URL_.
Variable url_JoinPath : URL_ -> string -> URL_.
Variable url_String : URL_ -> string.

(** X5. [getProxmoxClient] leaves the world as it found it.  An address
    that does not parse is reported first, wrapped behind a text that
    holds the address, also when the credentials cannot be read; an error
    of reading the credentials is handed on as it is, not wrapped again;
    otherwise a client is built, for the address joined with "/api2/json",
    from one option of authentication followed by the HTTP client that
    carries the TLS setting of the group. *)
Theorem getProxmoxClient_outcome (ig : InstanceGroup) (w : World) :
  let r := fst (getProxmoxClient URL_ url_Parse url_JoinPath url_String ig w) in
  snd (getProxmoxClient URL_ url_Parse url_JoinPath url_String ig w) = w
  /\ match url_Parse (URL (settings ig)) with
     | Fail e =>
         r = Fail (wrapError ("failed to parse URL='" +:+ URL (settings ig) +:+ "': ") e)
     | OK url =>
         match fst (getProxmoxCredentials ig w) with
         | Fail err => r = Fail err
         | OK credentials =>
             exists auth,
               r = OK (proxmox.NewClient
                         (url_String (url_JoinPath url "/api2/json"))
                         [auth; proxmox.WithHTTPClient (InsecureSkipTLSVerify (settings ig))])
               /\ ((exists login, auth = proxmox.WithCredentials login)
                   \/ (exists tokenID secret, auth = proxmox.WithAPIToken tokenID secret))
         end
     end.
Proof.
  intros r. subst r. unfold getProxmoxClient.
  destruct (url_Parse (URL (settings ig))) as [url|e]; [|split; reflexivity].
  run_world. rewrite (surjective_pairing (getProxmoxCredentials ig w)).
  rewrite getProxmoxCredentials_world.
  destruct (fst (getProxmoxCredentials ig w)) as [credentials|err]; [|split; reflexivity].
  destruct (String.eqb (TokenID credentials) EmptyString);
    (split; [reflexivity|]); eexists; (split; [reflexivity|]); eauto.
Qed.

(** X6. The client does not depend on the OTP secret of the credential
    record, and with a token identifier it depends neither on the path nor
    on the privileges: two records that agree on the user name, the
    password, the token identifier and the realm, and on the path and the
    privileges when there is no token identifier, give the same client. *)
Theorem getProxmoxClient_unused_fields (ig : InstanceGroup) (w1 w2 : World)
    (c1 c2 : Credentials) :
  fst (getProxmoxCredentials ig w1) = OK c1 ->
  fst (getProxmoxCredentials ig w2) = OK c2 ->
  Username c1 = Username c2 ->
  Password c1 = Password c2 ->
  TokenID c1 = TokenID c2 ->
  Realm c1 = Realm c2 ->
  (TokenID c1 = EmptyString -> Path c1 = Path c2 /\ Privs c1 = Privs c2) ->
  fst (getProxmoxClient URL_ url_Parse url_JoinPath url_String ig w1)
  = fst (getProxmoxClient URL_ url_Parse url_JoinPath url_String ig w2).
Proof.
  intros H1 H2 Hu Hp Ht Hr Hpath. unfold getProxmoxClient.
  destruct (url_Parse (URL (settings ig))) as [url|e]; [|reflexivity].
  run_world.
  rewrite (surjective_pairing (getProxmoxCredentials ig w1)), H1.
  rewrite (surjective_pairing (getProxmoxCredentials ig w2)), H2.
  rewrite <- Ht.
  destruct (String.eqb (TokenID c1) EmptyString) eqn:Hempty; cbn [fst].
  - apply String.eqb_eq in Hempty. destruct (Hpath Hempty) as [-> ->].
    now rewrite Hu, Hp, Hr.
  - now rewrite Hu, Hp, Hr, Ht.
Qed.

End ClientFactoryOutcome.

(** The OTP secret, the path and the privileges of a token file do not
    reach the client. *)
Lemma getProxmoxClient_unused_fields_scenario :
  fst (getProxmoxClient string (fun s => OK s) (fun u p => u +:+ p) (fun u => u)
         scenario.ig (scenario.world scenario.tokenFile))
  = fst (getProxmoxClient string (fun s => OK s) (fun u p => u +:+ p) (fun u => u)
           scenario.ig (scenario.world examples.tokenFileWithOtp)).
Proof.
  apply (getProxmoxClient_unused_fields string (fun s => OK s) (fun u p => u +:+ p)
           (fun u => u) scenario.ig
           (scenario.world scenario.tokenFile) (scenario.world examples.tokenFileWithOtp)
           (mkCredentials "ci" "5ecret" "runner" EmptyString EmptyString EmptyString "pve")
           (mkCredentials "ci" "5ecret" "runner" "JBSWY3DPEHPK3PXP" "/" "Sys.Audit" "pve"));
    try reflexivity.
  intros Hempty. discriminate Hempty.
Defined.

(** ** Credential store reader: what it reads and what it reports *)

(** X7. [getProxmoxCredentials] reads the file of the configured path and
    nothing else, afresh at every call: its result is the same in two
    worlds that agree on that file, whatever else differs (other files,
    open descriptors, the log, the session), and it leaves each world as
    it found it. *)
Theorem getProxmoxCredentials_reads_the_file_only (ig : InstanceGroup) (w1 w2 : World) :
  files w1 !! CredentialsFilePath (settings ig) = files w2 !! CredentialsFilePath (settings ig) ->
  fst (getProxmoxCredentials ig w1) = fst (getProxmoxCredentials ig w2)
  /\ snd (getProxmoxCredentials ig w1) = w1
  /\ snd (getProxmoxCredentials ig w2) = w2.
Proof.
  intros Hsame. rewrite !getProxmoxCredentials_paths. cbn [fst snd].
  unfold opened. now rewrite Hsame.
Qed.

Lemma getProxmoxCredentials_reads_the_file_only_scenario :
  fst (getProxmoxCredentials scenario.ig (examples.busyWorld scenario.passwordFile))
  = fst (getProxmoxCredentials scenario.ig (scenario.world scenario.passwordFile))
  /\ snd (getProxmoxCredentials scenario.ig (examples.busyWorld scenario.passwordFile))
     = examples.busyWorld scenario.passwordFile.
Proof.
  destruct (getProxmoxCredentials_reads_the_file_only scenario.ig
              (examples.busyWorld scenario.passwordFile)
              (scenario.world scenario.passwordFile) eq_refl) as (Hsame & Hworld & _).
  split; assumption.
Defined.

(** X8. When there is no file at the configured path, the error of
    [getProxmoxCredentials] reads "failed to open credentials file from
    path='P': open P: no such file or directory", and it wraps the path
    error of [os.Open], which wraps the error of the system. *)
Theorem getProxmoxCredentials_missing_file (json_text : json_error -> string)
    (ig : InstanceGroup) (w : World) :
  files w !! CredentialsFilePath (settings ig) = None ->
  exists err,
    fst (getProxmoxCredentials ig w) = Fail err
    /\ Error json_text err
       = "failed to open credentials file from path='" +:+ CredentialsFilePath (settings ig)
         +:+ "': open " +:+ CredentialsFilePath (settings ig)
         +:+ ": no such file or directory"
    /\ causes err
       = [err; PathError "open" (CredentialsFilePath (settings ig)) ENOENT; ENOENT].
Proof.
  intros Hnone. rewrite getProxmoxCredentials_paths. cbn [fst].
  unfold opened. rewrite Hnone. eexists. split; [reflexivity|]. split.
  - cbn [Error ENOENT]. rewrite !append_assoc. reflexivity.
  - reflexivity.
Qed.

Lemma getProxmoxCredentials_missing_file_scenario :
  exists err,
    fst (getProxmoxCredentials scenario.ig scenario.worldWithoutFile) = Fail err
    /\ Error (fun _ => EmptyString) err
       = "failed to open credentials file from path='/etc/fleeting/credentials.json': open /etc/fleeting/credentials.json: no such file or directory".
Proof.
  destruct (getProxmoxCredentials_missing_file (fun _ => EmptyString) scenario.ig
              scenario.worldWithoutFile eq_refl) as (err & Hload & Htext & _).
  exists err. split; [exact Hload | exact Htext].
Defined.

(** Input that holds white space only has no value. *)
Lemma parse_blank s : json.skipSpace s = EmptyString -> json.parse s = json.Short.
Proof.
  intros Hblank. unfold json.parse, json.enough.
  replace (2 * String.length s + 2)%nat with (S (2 * String.length s + 1)) by lia.
  cbn [json.parseValue]. now rewrite Hblank.
Qed.

(** X9. A credential file that is empty, or holds white space only, does
    not load: the error wraps [io.EOF], or the error of reading when
    reading the file fails (as it does for a directory). *)
Theorem getProxmoxCredentials_blank_file (ig : InstanceGroup) (w : World)
    (rd : decode.Reader) :
  opened w (CredentialsFilePath (settings ig)) = OK rd ->
  json.skipSpace (decode.data rd) = EmptyString ->
  fst (getProxmoxCredentials ig w)
  = Fail (wrapError
            ("failed to decode credentials file from path='"
             +:+ CredentialsFilePath (settings ig) +:+ "': ")
            match decode.failure rd with
            | Some err => err
            | None => jsonError EOF
            end).
Proof.
  intros Hopen Hblank. rewrite getProxmoxCredentials_paths. cbn zeta. rewrite Hopen.
  unfold decode.Decode. rewrite (parse_blank _ Hblank), Hblank.
  destruct (decode.failure rd); reflexivity.
Qed.

Lemma getProxmoxCredentials_blank_file_scenario :
  fst (getProxmoxCredentials scenario.ig (scenario.world "  "))
  = Fail (wrapError "failed to decode credentials file from path='/etc/fleeting/credentials.json': "
            (jsonError EOF)).
Proof.
  exact (getProxmoxCredentials_blank_file scenario.ig (scenario.world "  ")
           (decode.mkReader "  " None) eq_refl eq_refl).
Defined.

Lemma parse_null rest :
  json.parse ("null" +:+ rest) = json.Done json.Null rest.
Proof.
  unfold json.parse, json.enough.
  replace (2 * String.length ("null" +:+ rest) + 2)%nat
    with (S (2 * String.length ("null" +:+ rest) + 1)) by lia.
  change ("null" +:+ rest) with (String "n" (String "u" (String "l" (String "l" rest)))).
  reflexivity.
Qed.

(** X10. A credential file that starts with the value [null] loads, as
    the record with every field empty, whatever follows the value. *)
Theorem getProxmoxCredentials_null_file (ig : InstanceGroup) (w : World) (rest : string) :
  files w !! CredentialsFilePath (settings ig)
  = Some (Readable (decode.mkReader ("null" +:+ rest) None)) ->
  fst (getProxmoxCredentials ig w) = OK noCredentials.
Proof.
  intros Hfile. rewrite getProxmoxCredentials_paths. cbn zeta.
  unfold opened. rewrite Hfile. unfold decode.Decode. cbn [decode.data decode.failure].
  rewrite parse_null. now destruct rest.
Qed.

Lemma getProxmoxCredentials_null_file_scenario :
  fst (getProxmoxCredentials scenario.ig (scenario.world "null and void")) = OK noCredentials.
Proof.
  exact (getProxmoxCredentials_null_file scenario.ig (scenario.world "null and void")
           " and void" eq_refl).
Defined.

(** The error the decoder ends with: the one it had, else the one of the
    first member that does not fit. *)
Lemma members_error members st :
  snd (fold_left decode.member members st)
  = match snd st with
    | Some e => Some e
    | None => option_map misfitError (firstMisfitMember members)
    end.
Proof.
  revert st. induction members as [|kv members IH]; intros [c saved].
  - cbn. now destruct saved.
  - cbn [fold_left]. rewrite IH. unfold firstMisfitMember. cbn [find].
    unfold decode.member at 1.
    destruct (decode.fieldOf (fst kv)) as [f|] eqn:Hf; [|reflexivity].
    destruct (snd kv) eqn:Hv; cbn [storable negb snd decode.saveError];
      destruct saved; try reflexivity;
      cbn [decode.saveError snd option_map]; unfold misfitError; now rewrite ?Hv.
Qed.

(** Loading a file whose first value is an object. *)
Lemma getProxmoxCredentials_object_paths ig w rd members rest :
  opened w (CredentialsFilePath (settings ig)) = OK rd ->
  json.parse (decode.data rd) = json.Done (json.Object members) rest ->
  fst (getProxmoxCredentials ig w)
  = match firstMisfitMember members with
    | Some kv =>
        Fail (wrapError
                ("failed to decode credentials file from path='"
                 +:+ CredentialsFilePath (settings ig) +:+ "': ")
                (jsonError (misfitError kv)))
    | None => OK (stored members)
    end.
Proof.
  intros Hopen Hparse. rewrite getProxmoxCredentials_paths. cbn zeta. rewrite Hopen.
  rewrite (Decode_object _ _ _ _ Hparse), members_error. cbn [snd].
  destruct (firstMisfitMember members); reflexivity.
Qed.

(** X11. A credential file whose first value is an object loads exactly
    when no member that names a field of the record holds a value other
    than a string or [null].  Otherwise the error wraps the type error of
    the first such member, in the order of the file, which tells the kind
    of its value. *)
Theorem getProxmoxCredentials_object (ig : InstanceGroup) (w : World)
    (rd : decode.Reader) (members : list (string * json.value)) (rest : string) :
  opened w (CredentialsFilePath (settings ig)) = OK rd ->
  json.parse (decode.data rd) = json.Done (json.Object members) rest ->
  match firstMisfit members with
  | Some (f, v) =>
      storable v = false
      /\ (exists before key after,
            members = (before ++ (key, v) :: after)%list
            /\ decode.fieldOf key = Some f
            /\ Forall (fun kv => decode.fieldOf (fst kv) = None
                                 \/ storable (snd kv) = true) before)
      /\ exists member,
           fst (getProxmoxCredentials ig w)
           = Fail (wrapError
                     ("failed to decode credentials file from path='"
                      +:+ CredentialsFilePath (settings ig) +:+ "': ")
                     (jsonError (UnmarshalTypeError (decode.kind v) member)))
  | None =>
      Forall (fun kv => decode.fieldOf (fst kv) = None \/ storable (snd kv) = true) members
      /\ fst (getProxmoxCredentials ig w) = OK (stored members)
  end.
Proof.
  intros Hopen Hparse. rewrite (getProxmoxCredentials_object_paths _ _ _ _ _ Hopen Hparse).
  unfold firstMisfit.
  destruct (firstMisfitMember members) as [[key v]|] eqn:Hfind.
  - unfold firstMisfitMember in Hfind. cbn [fst snd].
    assert (Hsplit : exists before after,
              members = (before ++ (key, v) :: after)%list
              /\ Forall (fun kv => decode.fieldOf (fst kv) = None
                                   \/ storable (snd kv) = true) before).
    { clear Hparse. induction members as [|kv members IH]; [discriminate Hfind|].
      cbn [find] in Hfind.
      destruct (decode.fieldOf (fst kv)) as [g|] eqn:Hg.
      - destruct (negb (storable (snd kv))) eqn:Hbad.
        + injection Hfind as ->. exists [], members. split; [reflexivity | constructor].
        + destruct (IH Hfind) as (before & after & -> & Hall).
          exists (kv :: before), after. split; [reflexivity|].
          constructor; [right; now apply negb_false_iff | exact Hall].
      - destruct (IH Hfind) as (before & after & -> & Hall).
        exists (kv :: before), after. split; [reflexivity|].
        constructor; [now left | exact Hall]. }
    apply find_some in Hfind as [_ Hbad]. cbn [fst snd] in Hbad.
    destruct (decode.fieldOf key) as [f|] eqn:Hf; [|discriminate Hbad].
    destruct Hsplit as (before & after & Hmembers & Hall).
    split; [now apply negb_true_iff|]. split.
    + exists before, key, after. auto.
    + eexists. reflexivity.
  - split; [|reflexivity]. apply Forall_forall. intros kv Hin.
    pose proof (find_none _ _ Hfind kv (proj1 (list_elem_of_In _ _) Hin)) as Hok.
    cbn beta in Hok. destruct (decode.fieldOf (fst kv)); [|now left].
    right. now apply negb_false_iff.
Qed.

(** A number for the password: the load fails with the type error of a
    number. *)
Lemma getProxmoxCredentials_object_scenario :
  exists member,
    fst (getProxmoxCredentials scenario.ig
           (scenario.world ("{" +:+ scenario.quoted "username" +:+ ": "
                            +:+ scenario.quoted "root" +:+ ", "
                            +:+ scenario.quoted "Password" +:+ ": 12345}")))
    = Fail (wrapError
              "failed to decode credentials file from path='/etc/fleeting/credentials.json': "
              (jsonError (UnmarshalTypeError "number" member))).
Proof.
  pose proof (getProxmoxCredentials_object scenario.ig
                (scenario.world ("{" +:+ scenario.quoted "username" +:+ ": "
                                 +:+ scenario.quoted "root" +:+ ", "
                                 +:+ scenario.quoted "Password" +:+ ": 12345}"))
                (decode.mkReader ("{" +:+ scenario.quoted "username" +:+ ": "
                                  +:+ scenario.quoted "root" +:+ ", "
                                  +:+ scenario.quoted "Password" +:+ ": 12345}") None)
                [("username", json.Str "root"); ("Password", json.Number "12345")]
                EmptyString eq_refl eq_refl) as H.
  cbn in H. destruct H as (_ & _ & H). exact H.
Defined.

Lemma getField_setField_same f s c : getField f (setField f s c) = s.
Proof. now destruct f. Qed.

Lemma stored_last_key members1 key s members2 f :
  decode.fieldOf key = Some f ->
  present f members2 = false ->
  getField f (stored (members1 ++ (key, json.Str s) :: members2)%list) = s.
Proof.
  intros Hf Habsent. unfold stored. rewrite fold_left_app. cbn [fold_left].
  rewrite (members_absent _ _ _ Habsent).
  destruct (fold_left decode.member members1 (noCredentials, None)) as [c saved].
  unfold decode.member. cbn [fst snd]. rewrite Hf. cbn [fst].
  apply getField_setField_same.
Qed.

(** X12. When several keys of the object name the same field, in
    whatever case they are written, the record holds the string of the
    last of them: a field is what the last member that names it, with a
    string for its value, says. *)
Theorem getProxmoxCredentials_last_key (ig : InstanceGroup) (w : World)
    (rd : decode.Reader) (members1 members2 : list (string * json.value))
    (key s rest : string) (f : field) (credentials : Credentials) :
  opened w (CredentialsFilePath (settings ig)) = OK rd ->
  json.parse (decode.data rd)
  = json.Done (json.Object (members1 ++ (key, json.Str s) :: members2)%list) rest ->
  decode.keyIs key f = true ->
  present f members2 = false ->
  fst (getProxmoxCredentials ig w) = OK credentials ->
  getField f credentials = s.
Proof.
  intros Hopen Hparse Hkey Habsent Hload.
  rewrite (getProxmoxCredentials_object_paths _ _ _ _ _ Hopen Hparse) in Hload.
  destruct (firstMisfitMember _); [discriminate Hload|]. injection Hload as <-.
  apply stored_last_key; [|exact Habsent].
  destruct (decode.fieldOf key) as [g|] eqn:Hg.
  - f_equal. apply fieldOf_keyIs in Hg.
    unfold decode.keyIs in *. apply String.eqb_eq in Hkey, Hg.
    rewrite Hkey in Hg. destruct f, g; (reflexivity || (vm_compute in Hg; discriminate Hg)).
  - exfalso. unfold decode.fieldOf in Hg.
    destruct (find (fun f0 => String.eqb (jsonName f0) key) fields); [discriminate Hg|].
    assert (Hin : In f fields) by (destruct f; cbn; tauto).
    pose proof (find_none _ _ Hg f Hin) as Hno. congruence.
Qed.

Lemma getProxmoxCredentials_last_key_scenario :
  exists credentials,
    fst (getProxmoxCredentials scenario.ig
           (scenario.world (scenario.object [("username", "old"); ("USERNAME", "root")])))
    = OK credentials
    /\ Username credentials = "root".
Proof.
  eexists. split; [reflexivity|].
  apply (getProxmoxCredentials_last_key scenario.ig
           (scenario.world (scenario.object [("username", "old"); ("USERNAME", "root")]))
           (decode.mkReader (scenario.object [("username", "old"); ("USERNAME", "root")]) None)
           [("username", json.Str "old")] [] "USERNAME" "root" EmptyString fUsername);
    reflexivity.
Defined.

(** ** Reading back a credential file *)

Lemma append_String (c : ascii) (a b : string) : String c a +:+ b = String c (a +:+ b).
Proof. reflexivity. Qed.

Lemma append_empty (b : string) : EmptyString +:+ b = b.
Proof. reflexivity. Qed.

Lemma length_append (a b : string) :
  String.length (a +:+ b) = (String.length a + String.length b)%nat.
Proof.
  induction a as [|x a IH]; [reflexivity|].
  rewrite append_String. cbn [String.length]. now rewrite IH.
Qed.

(** A plain string is unquoted as it stands. *)
Lemma unquote_plain v rest :
  plain v = true ->
  json.unquote 0 (v +:+ String "034" rest) = json.Done v rest.
Proof.
  induction v as [|c v IH]; intros Hplain.
  - reflexivity.
  - cbn [plain] in Hplain. apply andb_true_iff in Hplain as [Hc Hv].
    unfold plainChar in Hc.
    apply andb_true_iff in Hc as [Hc Hbs]. apply andb_true_iff in Hc as [Hc Hq].
    apply andb_true_iff in Hc as [Hlo Hhi].
    apply negb_true_iff in Hq, Hbs.
    rewrite append_String. cbn [json.unquote]. rewrite Hq, Hbs, Hhi.
    replace (json.code c <? 32)%N with false by (symmetry; apply N.ltb_ge, N.leb_le, Hlo).
    rewrite (IH Hv). reflexivity.
Qed.

Lemma parseValue_plain fuel depth v rest :
  plain v = true ->
  json.parseValue (S fuel) depth (String " " (String "034" (v +:+ String "034" rest)))
  = json.Done (json.Str v) rest.
Proof.
  intros Hplain. cbn [json.parseValue json.skipSpace].
  change (json.isSpace " ") with true. change (json.isSpace "034") with false.
  cbn match. change (Ascii.eqb "034" "{") with false. change (Ascii.eqb "034" "[") with false.
  change (Ascii.eqb "034" "034") with true. cbn match.
  now rewrite (unquote_plain _ _ Hplain).
Qed.

Lemma parseMembers_space fuel depth s :
  json.parseMembers fuel depth (String " " s) = json.parseMembers fuel depth s.
Proof. destruct fuel; reflexivity. Qed.

(** The members of an object written by [scenario.pairs] are read back. *)
Lemma parseMembers_pairs kvs :
  kvs <> [] ->
  Forall (fun kv => plain (fst kv) = true /\ plain (snd kv) = true) kvs ->
  forall fuel depth tail,
    (length kvs <= fuel)%nat ->
    json.parseMembers (S fuel) depth (scenario.pairs kvs +:+ String "}" tail)
    = json.Done (map (fun kv => (fst kv, json.Str (snd kv))) kvs) tail.
Proof.
  intros Hne Hall. induction Hall as [|[k v] kvs [Hk Hv] Hall IH]; [contradiction|].
  intros fuel depth tail Hfuel. cbn [fst snd] in *.
  destruct fuel as [|fuel]; [cbn in Hfuel; lia|].
  assert (Hhead : forall X,
    json.parseMembers (S (S fuel)) depth
      (scenario.quoted k +:+ ": " +:+ scenario.quoted v +:+ X)
    = match json.skipSpace X with
      | EmptyString => json.Short
      | String c4 r4 =>
          if Ascii.eqb c4 ","
          then json.bind (json.parseMembers (S fuel) depth r4)
                 (fun ms rest => json.Done ((k, json.Str v) :: ms) rest)
          else if Ascii.eqb c4 "}" then json.Done [(k, json.Str v)] r4
          else json.Invalid "after object key:value pair"
      end).
  { intros X. unfold scenario.quoted.
    rewrite ?append_String, ?append_assoc, ?append_String, ?append_empty.
    cbn [json.parseMembers json.skipSpace].
    change (json.isSpace "034") with false. cbn match.
    change (Ascii.eqb "034" "034") with true. cbn match.
    rewrite (unquote_plain _ _ Hk). cbn [json.bind json.skipSpace].
    change (json.isSpace ":") with false. cbn match.
    change (Ascii.eqb ":" ":") with true. cbn match.
    rewrite ?append_assoc, ?append_String, ?append_empty.
    rewrite (parseValue_plain _ _ _ _ Hv). reflexivity. }
  destruct kvs as [|kv' kvs].
  - cbn [scenario.pairs map]. rewrite ?append_assoc, Hhead.
    rewrite ?append_String, ?append_empty. reflexivity.
  - change (scenario.pairs ((k, v) :: kv' :: kvs))
      with (scenario.quoted k +:+ ": " +:+ scenario.quoted v +:+ ", "
            +:+ scenario.pairs (kv' :: kvs)).
    rewrite ?append_assoc, Hhead. rewrite ?append_String, append_empty.
    cbn [json.skipSpace]. change (json.isSpace ",") with false. cbn match.
    change (Ascii.eqb "," ",") with true. cbn match.
    rewrite parseMembers_space.
    rewrite IH; [reflexivity | discriminate | cbn [length] in Hfuel |- *; lia].
Qed.

(** An object written by [scenario.object] is read back, whatever follows
    it. *)
Lemma parse_object kvs tail :
  kvs <> [] ->
  Forall (fun kv => plain (fst kv) = true /\ plain (snd kv) = true) kvs ->
  json.parse (scenario.object kvs +:+ tail)
  = json.Done (json.Object (map (fun kv => (fst kv, json.Str (snd kv))) kvs)) tail.
Proof.
  intros Hne Hall. unfold json.parse, json.enough, scenario.object.
  rewrite ?append_assoc, ?append_String, ?append_empty.
  assert (Hlen : (length kvs <= String.length (scenario.pairs kvs))%nat).
  { clear Hne Hall. induction kvs as [|[k v] [|kv' kvs] IH]; [cbn; lia | |].
    - cbn [scenario.pairs length]. unfold scenario.quoted.
      rewrite ?append_String. cbn [String.length]. lia.
    - change (scenario.pairs ((k, v) :: kv' :: kvs))
        with (scenario.quoted k +:+ ": " +:+ scenario.quoted v +:+ ", "
              +:+ scenario.pairs (kv' :: kvs)).
      unfold scenario.quoted.
      repeat first [ rewrite append_String | rewrite length_append
                   | progress cbn [String.length] ].
      cbn [length] in *. lia. }
  set (s := String "{" (scenario.pairs kvs +:+ String "}" tail)).
  assert (Hs : (length kvs < String.length s)%nat).
  { subst s. cbn [String.length]. rewrite length_append. lia. }
  replace (2 * String.length s + 2)%nat with (S (S (String.length s + String.length s)))
    by lia.
  subst s. cbn [json.parseValue json.skipSpace].
  change (json.isSpace "{") with false. cbn match.
  change (Ascii.eqb "{" "{") with true. cbn match.
  change (0 <? json.maxNestingDepth)%N with true. cbn match.
  assert (Hopen : json.closes "}" (scenario.pairs kvs +:+ String "}" tail) = None).
  { destruct kvs as [|[k v] [|kv' kvs]]; [contradiction | |].
    - cbn [scenario.pairs]. unfold scenario.quoted. rewrite ?append_String. reflexivity.
    - change (scenario.pairs ((k, v) :: kv' :: kvs))
        with (scenario.quoted k +:+ ": " +:+ scenario.quoted v +:+ ", "
              +:+ scenario.pairs (kv' :: kvs)).
      unfold scenario.quoted. rewrite ?append_String. reflexivity. }
  rewrite Hopen. rewrite (parseMembers_pairs kvs Hne Hall); [reflexivity|].
  lia.
Qed.

(** X13. Writing a record out and loading it gives the record back: a
    credential file that holds the object with the keys username,
    password, token, otpsecret, path, privs and realm, each with a string
    of printable ASCII characters (without quote and backslash), loads as
    the record with these seven strings.  What follows the object in the
    file plays no part, and neither does an error of reading behind it. *)
Theorem credentials_file_round_trip (ig : InstanceGroup) (w : World)
    (c : Credentials) (tail : string) (failure : option error) :
  files w !! CredentialsFilePath (settings ig)
  = Some (Readable (decode.mkReader (render c +:+ tail) failure)) ->
  Forall (fun f => plain (getField f c) = true) fields ->
  fst (getProxmoxCredentials ig w) = OK c.
Proof.
  intros Hfile Hplain.
  assert (Hopen : opened w (CredentialsFilePath (settings ig))
                  = OK (decode.mkReader (render c +:+ tail) failure))
    by (unfold opened; now rewrite Hfile).
  assert (Hparse : json.parse (render c +:+ tail)
    = json.Done (json.Object
        [("username", json.Str (Username c)); ("password", json.Str (Password c));
         ("token", json.Str (TokenID c)); ("otpsecret", json.Str (OtpSecret c));
         ("path", json.Str (Path c)); ("privs", json.Str (Privs c));
         ("realm", json.Str (Realm c))]) tail).
  { unfold render. rewrite parse_object; [reflexivity | discriminate |].
    unfold fields in Hplain.
    repeat (apply Forall_cons in Hplain as [? Hplain]).
    repeat (apply Forall_cons; split; [split; [reflexivity | assumption]|]).
    constructor. }
  rewrite (getProxmoxCredentials_object_paths _ _ _ _ _ Hopen Hparse).
  destruct c; reflexivity.
Qed.

Lemma credentials_file_round_trip_scenario :
  fst (getProxmoxCredentials scenario.ig
         (scenario.world
            (render (mkCredentials "root" "hunter2" EmptyString "JBSWY3DPEHPK3PXP"
                                   "/vms" "VM.Audit" "pam")
             +:+ " # rotated 2024-03-01")))
  = OK (mkCredentials "root" "hunter2" EmptyString "JBSWY3DPEHPK3PXP" "/vms" "VM.Audit" "pam").
Proof.
  apply (credentials_file_round_trip scenario.ig _ _ " # rotated 2024-03-01" None).
  - reflexivity.
  - unfold fields. repeat constructor.
Defined.

Lemma stored_unknown_key members1 key v members2 :
  decode.fieldOf key = None ->
  stored (members1 ++ (key, v) :: members2)%list = stored (members1 ++ members2)%list.
Proof.
  intros Hnone. unfold stored. rewrite !fold_left_app. cbn [fold_left].
  destruct (fold_left decode.member members1 (noCredentials, None)) as [c saved].
  unfold decode.member at 2. cbn [fst]. now rewrite Hnone.
Qed.

Lemma firstMisfit_strings kvs :
  firstMisfitMember (map (fun kv : string * string => (fst kv, json.Str (snd kv))) kvs)
  = None.
Proof.
  unfold firstMisfitMember. induction kvs as [|kv kvs IH]; [reflexivity|].
  cbn [map find fst snd]. destruct (decode.fieldOf (fst kv)); exact IH.
Qed.

(** X14. A key that names no field of the record is passed over: a
    credential file with such a member added, anywhere in its object,
    loads as the file without it.  (The files are objects of plain
    strings.) *)
Theorem getProxmoxCredentials_unknown_key (ig : InstanceGroup) (w1 w2 : World)
    (kvs1 kvs2 : list (string * string)) (key v : string) :
  decode.fieldOf key = None ->
  plain key = true ->
  plain v = true ->
  (kvs1 ++ kvs2)%list <> [] ->
  Forall (fun kv => plain (fst kv) = true /\ plain (snd kv) = true) (kvs1 ++ kvs2)%list ->
  files w1 !! CredentialsFilePath (settings ig)
  = Some (Readable (decode.mkReader (scenario.object (kvs1 ++ (key, v) :: kvs2)%list) None)) ->
  files w2 !! CredentialsFilePath (settings ig)
  = Some (Readable (decode.mkReader (scenario.object (kvs1 ++ kvs2)%list) None)) ->
  fst (getProxmoxCredentials ig w1) = fst (getProxmoxCredentials ig w2)
  /\ exists credentials, fst (getProxmoxCredentials ig w2) = OK credentials.
Proof.
  intros Hnone Hkey Hv Hne Hall Hfile1 Hfile2.
  assert (Hall1 : Forall (fun kv => plain (fst kv) = true /\ plain (snd kv) = true)
                         (kvs1 ++ (key, v) :: kvs2)%list).
  { apply Forall_app in Hall as [H1 H2]. apply Forall_app. split; [exact H1|].
    constructor; [split; assumption | exact H2]. }
  assert (Hne1 : (kvs1 ++ (key, v) :: kvs2)%list <> []) by (now destruct kvs1).
  pose proof (parse_object _ EmptyString Hne1 Hall1) as Hparse1.
  pose proof (parse_object _ EmptyString Hne Hall) as Hparse2.
  assert (Hempty : forall s, s +:+ EmptyString = s).
  { induction s as [|x s IH]; [reflexivity|]. rewrite append_String. now rewrite IH. }
  rewrite Hempty in Hparse1, Hparse2.
  assert (Hopen1 : opened w1 (CredentialsFilePath (settings ig)) = OK _)
    by (unfold opened; now rewrite Hfile1).
  assert (Hopen2 : opened w2 (CredentialsFilePath (settings ig)) = OK _)
    by (unfold opened; now rewrite Hfile2).
  rewrite (getProxmoxCredentials_object_paths _ _ _ _ _ Hopen1 Hparse1).
  rewrite (getProxmoxCredentials_object_paths _ _ _ _ _ Hopen2 Hparse2).
  rewrite !firstMisfit_strings. split; [|eauto].
  f_equal. rewrite !map_app. cbn [map fst snd]. now apply stored_unknown_key.
Qed.

Lemma getProxmoxCredentials_unknown_key_scenario :
  fst (getProxmoxCredentials scenario.ig
         (scenario.world
            (scenario.object [("username", "root"); ("comment", "rotate monthly");
                              ("password", "hunter2")])))
  = fst (getProxmoxCredentials scenario.ig
           (scenario.world (scenario.object [("username", "root"); ("password", "hunter2")]))).
Proof.
  apply (getProxmoxCredentials_unknown_key scenario.ig _ _
           [("username", "root")] [("password", "hunter2")] "comment" "rotate monthly").
  - reflexivity.
  - reflexivity.
  - reflexivity.
  - discriminate.
  - repeat constructor.
  - reflexivity.
  - reflexivity.
Defined.

(** ** Session refresher: the run as a whole *)

Lemma loadFrom_files ig w : fst (getProxmoxCredentials ig w) = loadFrom ig (files w).
Proof. unfold loadFrom. rewrite !getProxmoxCredentials_paths. reflexivity. Qed.

(** The trace of a run of the loop of [proxmox_session.go]. *)
Lemma runSessionTicketRefresher_trace ig received w :
  trace (snd (runSessionTicketRefresher ig received w))
  = (trace w ++ runEvents ig (Ticket w) (served received))%list.
Proof.
  unfold runSessionTicketRefresher. revert w.
  induction received as [|[|now reply] later IH]; intros w.
  - cbn. now rewrite app_nil_r.
  - cbn. now rewrite app_nil_r.
  - rewrite refresherLoop_Interval, IH. cbn [served runEvents].
    destruct (refreshCycle_effect ig reply (snd (setFiles now w)))
      as (Htrace & _ & _ & _ & Hticket).
    rewrite Htrace, Hticket, loadFrom_files. cbn [setFiles snd files trace Ticket].
    now rewrite <- app_assoc.
Qed.

(** The trace of a run of the loop of the second file. *)
Lemma part_000_runSessionTicketRefresher_trace ig received w :
  trace (snd (part_000.runSessionTicketRefresher ig received w))
  = (trace w ++ runEvents_part_000 (Ticket w) (served received))%list.
Proof.
  unfold part_000.runSessionTicketRefresher. revert w.
  induction received as [|[|now reply] later IH]; intros w.
  - cbn. now rewrite app_nil_r.
  - cbn. now rewrite app_nil_r.
  - rewrite refresherLoop_Interval, IH. cbn [served runEvents_part_000].
    destruct (part_000_refreshCycle_effect ig reply (snd (setFiles now w)))
      as (Htrace & _ & _ & _ & Hticket).
    rewrite Htrace, Hticket. cbn [setFiles snd trace Ticket]. unfold cycleEvents_part_000.
    now rewrite <- app_assoc.
Qed.



Lemma count_app p (a b : list Event) : count p (a ++ b)%list = (count p a + count p b)%nat.
Proof. unfold count. now rewrite List.filter_app, length_app. Qed.

Lemma cycleEvents_counts ticket loaded reply :
  (count isTicketCall (cycleEvents ticket loaded reply) <= 1)%nat
  /\ count isRefreshed (cycleEvents ticket loaded reply)
     = count isTicketCall (cycleEvents ticket loaded reply).
Proof.
  unfold cycleEvents. destruct loaded as [c|err]; [|cbn; lia].
  destruct (reply _); cbn; lia.
Qed.

Lemma cycleEvents_part_000_counts ticket reply :
  count isTicketCall (cycleEvents_part_000 ticket reply) = 1%nat
  /\ count isRefreshed (cycleEvents_part_000 ticket reply) = 1%nat.
Proof. unfold cycleEvents_part_000. destruct (reply None); cbn; lia. Qed.

Lemma runEvents_counts ig ticket intervals :
  (count isTicketCall (runEvents ig ticket intervals) <= length intervals)%nat
  /\ count isRefreshed (runEvents ig ticket intervals)
     = count isTicketCall (runEvents ig ticket intervals).
Proof.
  revert ticket. induction intervals as [|[now reply] rest IH]; intros ticket; [cbn; lia|].
  cbn [runEvents length]. rewrite !count_app.
  pose proof (cycleEvents_counts ticket (loadFrom ig now) reply) as [Hle Heq].
  destruct (IH (ticketAfter ticket (loadFrom ig now) reply)) as [Hle' Heq']. lia.
Qed.

Lemma runEvents_part_000_counts ticket intervals :
  count isTicketCall (runEvents_part_000 ticket intervals) = length intervals
  /\ count isRefreshed (runEvents_part_000 ticket intervals) = length intervals.
Proof.
  revert ticket. induction intervals as [|[now reply] rest IH]; intros ticket; [cbn; lia|].
  cbn [runEvents_part_000 length]. rewrite !count_app.
  pose proof (cycleEvents_part_000_counts ticket reply) as [Hone Hone'].
  destruct (IH (ticketAfter_part_000 ticket reply)) as [Hall Hall']. lia.
Qed.

(** X16. No cycle tries twice: a run of the refresher of
    [proxmox_session.go] calls [Ticket] at most once for each interval it
    serves, and a run of the refresher of the second file exactly once.
    In both, the line "refreshed proxmox session" is logged once for each
    call of [Ticket], whether the call failed or not. *)
Theorem refresher_calls_per_interval (ig : InstanceGroup) (received : list Received)
    (w : World) :
  let events := added w (snd (runSessionTicketRefresher ig received w)) in
  let events' := added w (snd (part_000.runSessionTicketRefresher ig received w)) in
  (count isTicketCall events <= length (served received))%nat
  /\ count isRefreshed events = count isTicketCall events
  /\ count isTicketCall events' = length (served received)
  /\ count isRefreshed events' = length (served received).
Proof.
  intros events events'. subst events events'.
  rewrite (added_app _ _ _ (runSessionTicketRefresher_trace ig received w)).
  rewrite (added_app _ _ _ (part_000_runSessionTicketRefresher_trace ig received w)).
  destruct (runEvents_counts ig (Ticket w) (served received)) as [Hle Heq].
  destruct (runEvents_part_000_counts (Ticket w) (served received)) as [Hall Hall'].
  auto.
Qed.



(** The goroutine around a loop whose cycle leaves the wait group alone:
    as long as no shutdown trigger is received it waits, counted in; when
    the trigger is received it is done, and nothing received later counts. *)
Lemma goroutine_shutdown cycle before later w :
  (forall reply w0, waitGroup (snd (cycle reply w0)) = waitGroup w0) ->
  ~ In Shutdown before ->
  let running := snd (refresherLoop cycle before w) in
  goroutine (refresherLoop cycle) before w = (Waiting, running)
  /\ goroutine (refresherLoop cycle) (before ++ Shutdown :: later)%list w
     = (Returned, snd (WaitGroup_Done running))
  /\ waitGroup running = waitGroup w.
Proof.
  intros Hcycle Hno running. subst running. split; [|split].
  - unfold goroutine. run_world.
    rewrite (surjective_pairing (refresherLoop cycle before w)).
    now rewrite (refresherLoop_waiting _ _ _ Hno).
  - unfold goroutine. run_world. now rewrite (refresherLoop_app _ _ _ _ Hno).
  - now apply refresherLoop_waitGroup.
Qed.

(** X18. The refresher of the second file shuts down as the one of
    [proxmox_session.go] does: started, its goroutine is counted into the
    wait group and waits as long as its [select] receives no shutdown
    trigger; when it receives the trigger, after any number of cycles, it
    returns without a further cycle, whatever would be received later, and
    the counter of the wait group is back at its value before the start. *)
Theorem part_000_refresher_shutdown (ig : InstanceGroup) (w : World)
    (before later : list Received) :
  ~ In Shutdown before ->
  let task := fst (part_000.startSessionTicketRefresher ig w) in
  let started := snd (part_000.startSessionTicketRefresher ig w) in
  let running := snd (part_000.runSessionTicketRefresher ig before started) in
  task before started = (Waiting, running)
  /\ waitGroup running = waitGroup w + 1
  /\ task (before ++ Shutdown :: later)%list started
     = (Returned, snd (WaitGroup_Done running))
  /\ added started (snd (task (before ++ Shutdown :: later)%list started))
     = runEvents_part_000 (Ticket w) (served before)
  /\ waitGroup (snd (task (before ++ Shutdown :: later)%list started)) = waitGroup w.
Proof.
  intros Hno task started running.
  assert (Hcycle : forall reply w0,
            waitGroup (snd (part_000.refreshCycle ig reply w0)) = waitGroup w0)
    by (intros reply w0; apply part_000_refreshCycle_effect).
  destruct (goroutine_shutdown (part_000.refreshCycle ig) before later started Hcycle Hno)
    as (Hwait & Hstop & Hwg).
  assert (Hstarted : waitGroup started = waitGroup w + 1) by reflexivity.
  split; [exact Hwait|]. split; [unfold running, part_000.runSessionTicketRefresher; lia|].
  split; [exact Hstop|].
  change (task (before ++ Shutdown :: later)%list started)
    with (goroutine (refresherLoop (part_000.refreshCycle ig))
            (before ++ Shutdown :: later)%list started).
  rewrite Hstop. cbn [snd]. split.
  - apply added_app. unfold WaitGroup_Done, WaitGroup_Add. cbn [trace snd].
    apply (part_000_runSessionTicketRefresher_trace ig before started).
  - unfold WaitGroup_Done, WaitGroup_Add. cbn [waitGroup snd]. lia.
Qed.

(** Two intervals and then the trigger: two calls of [Ticket], and the
    wait group is empty again. *)
Lemma part_000_refresher_shutdown_scenario :
  let w := scenario.worldWithoutFile in
  let task := fst (part_000.startSessionTicketRefresher scenario.ig w) in
  let started := snd (part_000.startSessionTicketRefresher scenario.ig w) in
  let final := snd (task [Interval ∅ refusing; Interval ∅ (fun _ => OK "PVE:new");
                          Shutdown; Interval ∅ refusing] started) in
  added started final
  = [ CallTicket "PVE:root@pam:65F1A2B3::old" None;
      LogError "failed to refresh proxmox session" "err"
               (errorString "401 authentication failure");
      LogInfo "refreshed proxmox session";
      CallTicket "PVE:root@pam:65F1A2B3::old" None;
      LogInfo "refreshed proxmox session" ]
  /\ waitGroup final = 0.
Proof.
  intros w task started final.
  assert (Hno : ~ In Shutdown [Interval ∅ refusing; Interval ∅ (fun _ => OK "PVE:new")]).
  { intros [H | [H | []]]; discriminate H. }
  destruct (part_000_refresher_shutdown scenario.ig w
              [Interval ∅ refusing; Interval ∅ (fun _ => OK "PVE:new")]
              [Interval ∅ refusing] Hno) as (_ & _ & _ & Hadded & Hwg).
  split; [exact Hadded | exact Hwg].
Defined.
